(** * Scene numbering: a model of [sickbeard/scene_numbering.py]

    The module translates between the indexer's (season, episode)
    numbering of a show and the "scene" numbering, through three tables:

    - [scene_numbering] (main database): the user's overrides,
    - [xem_numbering]   (cache.db): the mappings fetched from thexem.de,
    - [xem_refresh]     (cache.db): one timestamp per refreshed show.

    The Python code is embedded function by function.  A function that
    reads or writes the databases, reads the clock or talks to the network
    becomes a state transformer over [state]; the body of the [try] block
    of [_xem_refresh] lives in a state monad with exceptions, because an
    exception there leaves the statements already executed in force (the
    connection layer commits after every [action]).

    What the module imports is modelled as follows.
    - A table is the list of its rows in insertion order, [select] is a
      filter.  A SELECT by the whole PRIMARY KEY reads it as it is (it has
      one row at most in a table that keeps its key); a SELECT that fixes
      the show only is answered, as SQLite does, from the index of the
      PRIMARY KEY, in (season, episode) order ([index_scan]).
      The columns are declared INTEGER and hold integers; the
      [last_refreshed] column receives [time.time()], a fractional number
      of seconds, which the code truncates with [int] when it reads it.
    - [INSERT INTO] on a table with a PRIMARY KEY fails when the key is
      already present, and the failure is an exception at the call of
      [action]; [INSERT OR REPLACE INTO] replaces the row.
    - [requests.get(url).json()] either raises (network error, body that
      is not JSON) or returns the decoded value.  The remote service is a
      function from endpoint and show to such a response; every GET is
      recorded in [requests].
    - [logger.log] has no effect on any of the above and is left out. *)

From Stdlib Require Import ZArith QArith Qround List String Bool Lia Lqa.
Import ListNotations.

Set Warnings "-register-all".
Local Open Scope string_scope.
Local Open Scope list_scope.
Local Open Scope Z_scope.

(** ** Decoded JSON values and the Python operations the code applies to them *)

Module Py.

(** What [json()] returns: [None], a bool, an integer, a unicode string, a
    list or a dict.  Numbers with a fractional part are outside the model. *)
Inductive json : Type :=
| JNull
| JBool (b : bool)
| JNum (z : Z)
| JStr (s : string)
| JArr (items : list json)
| JObj (fields : list (string * json)).

(** [if x:] *)
Definition truthy (x : json) : bool :=
  match x with
  | JNull => false
  | JBool b => b
  | JNum z => negb (z =? 0)
  | JStr s => negb (s =? "")%string
  | JArr items => match items with [] => false | _ => true end
  | JObj fields => match fields with [] => false | _ => true end
  end.

(** [x is None or x == ''] *)
Definition is_none_or_empty (x : json) : bool :=
  match x with
  | JNull => true
  | JStr s => (s =? "")%string
  | _ => false
  end.

(** A dict decoded from an object with a repeated key keeps the last
    value. *)
Fixpoint dict_get (k : string) (fields : list (string * json)) : option json :=
  match fields with
  | [] => None
  | (k', v) :: rest =>
      match dict_get k rest with
      | Some v' => Some v'
      | None => if (k =? k')%string then Some v else None
      end
  end.

Definition dict_has (k : string) (fields : list (string * json)) : bool :=
  existsb (fun kv => (k =? fst kv)%string) fields.

(** [x[k]] for a string [k]: KeyError on a dict without the key, TypeError
    on everything else ([None] is the exception). *)
Definition getitem (x : json) (k : string) : option json :=
  match x with
  | JObj fields => dict_get k fields
  | _ => None
  end.

(** [needle in hay] on strings *)
Fixpoint substring_of (needle hay : string) : bool :=
  match hay with
  | EmptyString => String.prefix needle hay
  | String _ rest => String.prefix needle hay || substring_of needle rest
  end.

Definition is_str (k : string) (x : json) : bool :=
  match x with
  | JStr s => (s =? k)%string
  | _ => false
  end.

(** [k in x] for a string [k]: substring of a string, element of a list,
    key of a dict; TypeError on [None], bools and numbers. *)
Definition contains (k : string) (x : json) : option bool :=
  match x with
  | JStr s => Some (substring_of k s)
  | JArr items => Some (existsb (is_str k) items)
  | JObj fields => Some (dict_has k fields)
  | _ => None
  end.

Fixpoint chars (s : string) : list json :=
  match s with
  | EmptyString => []
  | String c rest => JStr (String c EmptyString) :: chars rest
  end.

(** [for entry in x]: the elements of a list, the keys of a dict (each key
    once; the model lists them in the order of the document), the
    characters of a string; TypeError on [None], bools and numbers. *)
Definition iter (x : json) : option (list json) :=
  match x with
  | JArr items => Some items
  | JObj fields => Some (map JStr (nodup string_dec (map fst fields)))
  | JStr s => Some (chars s)
  | _ => None
  end.

(** A value bound to a parameter of an INSERT into [xem_numbering].  The
    model keeps integers in the INTEGER columns: an integer (or a bool,
    which is one in Python) is bound.  For any other value the model lets
    the INSERT fail, which SQLite does not do for a string or for null (it
    stores them); what is stated below about the rows that a refresh stores
    is stated for entries with integer numbers. *)
Definition sql_integer (x : json) : option Z :=
  match x with
  | JNum z => Some z
  | JBool b => Some (Z.b2z b)
  | _ => None
  end.

(** [int(x)] on a number of seconds: truncation towards zero. *)
Definition int (q : Q) : Z :=
  if Qle_bool 0 q then Qfloor q else Qceiling q.

End Py.

Import Py.

(** ** Tables *)

(** A row of [scene_numbering] and of [xem_numbering]; both tables have
    PRIMARY KEY (indexer_id, season, episode). *)
Record numbering_row : Type := mkRow {
  row_indexer_id : Z;
  row_season : Z;
  row_episode : Z;
  row_scene_season : Z;
  row_scene_episode : Z
}.

(** A row of [xem_refresh], PRIMARY KEY indexer_id. *)
Record refresh_row : Type := mkRefresh {
  refresh_indexer_id : Z;
  last_refreshed : Q
}.

(** [WHERE indexer_id = ? and season = ? and episode = ?] *)
Definition key_is (i s e : Z) (r : numbering_row) : bool :=
  (row_indexer_id r =? i) && (row_season r =? s) && (row_episode r =? e).

(** [WHERE indexer_id = ? and scene_season = ? and scene_episode = ?] *)
Definition scene_is (i ss se : Z) (r : numbering_row) : bool :=
  (row_indexer_id r =? i) && (row_scene_season r =? ss)
  && (row_scene_episode r =? se).

(** [WHERE indexer_id = ?] *)
Definition show_is (i : Z) (r : numbering_row) : bool :=
  row_indexer_id r =? i.

(** [WHERE indexer_id = ? AND season = ?] *)
Definition season_is (i s : Z) (r : numbering_row) : bool :=
  (row_indexer_id r =? i) && (row_season r =? s).

Definition select (p : numbering_row -> bool) (t : list numbering_row)
  : list numbering_row := filter p t.

Definition delete (p : numbering_row -> bool) (t : list numbering_row)
  : list numbering_row := filter (fun r => negb (p r)) t.

(** [ORDER BY season, episode]: an insertion sort that keeps rows of equal
    (season, episode) in their order. *)
Definition row_le (a b : numbering_row) : bool :=
  (row_season a <? row_season b)
  || ((row_season a =? row_season b) && (row_episode a <=? row_episode b)).

Fixpoint insert_sorted (r : numbering_row) (l : list numbering_row)
  : list numbering_row :=
  match l with
  | [] => [r]
  | x :: rest => if row_le r x then r :: l else x :: insert_sorted r rest
  end.

Definition order_by_season_episode (l : list numbering_row)
  : list numbering_row :=
  fold_right insert_sorted [] l.

(** A SELECT without ORDER BY whose WHERE clause fixes the show but not the
    whole key, so that several rows can match: SQLite answers it from the
    index of the PRIMARY KEY (indexer_id, season, episode), and the rows of
    the show come in (season, episode) order. *)
Definition index_scan (p : numbering_row -> bool) (t : list numbering_row)
  : list numbering_row := order_by_season_episode (select p t).

(** [INSERT INTO]: [None] is the constraint failure on a present key. *)
Definition insert (r : numbering_row) (t : list numbering_row)
  : option (list numbering_row) :=
  if existsb (key_is (row_indexer_id r) (row_season r) (row_episode r)) t
  then None
  else Some (t ++ [r]).

(** [INSERT OR REPLACE INTO xem_refresh] *)
Definition upsert_refresh (r : refresh_row) (t : list refresh_row)
  : list refresh_row :=
  filter (fun r' => negb (refresh_indexer_id r' =? refresh_indexer_id r)) t
  ++ [r].

(** ** The state the module acts on *)

Inductive endpoint : Type :=
| TheXem       (* http://thexem.de/map/all?id=..&origin=tvdb&destination=scene *)
| TVTumbler.   (* http://show-api.tvtumbler.com/api/thexem/all?id=..          *)

Inductive response : Type :=
| Raises
| Body (data : json).

Record state : Type := mkState {
  schema_created : bool;                    (* the global _schema_created *)
  scene_numbering : list numbering_row;     (* main database *)
  xem_numbering : list numbering_row;       (* cache.db *)
  xem_refresh : list refresh_row;           (* cache.db *)
  clock : Q;                                (* what time.time() returns *)
  remote : endpoint -> Z -> response;       (* the remote services *)
  requests : list (endpoint * Z)            (* the GETs issued so far *)
}.

Definition with_schema_created (b : bool) (st : state) : state :=
  mkState b (scene_numbering st) (xem_numbering st) (xem_refresh st)
          (clock st) (remote st) (requests st).

Definition with_scene_numbering (t : list numbering_row) (st : state) : state :=
  mkState (schema_created st) t (xem_numbering st) (xem_refresh st)
          (clock st) (remote st) (requests st).

Definition with_xem_numbering (t : list numbering_row) (st : state) : state :=
  mkState (schema_created st) (scene_numbering st) t (xem_refresh st)
          (clock st) (remote st) (requests st).

Definition with_xem_refresh (t : list refresh_row) (st : state) : state :=
  mkState (schema_created st) (scene_numbering st) (xem_numbering st) t
          (clock st) (remote st) (requests st).

Definition with_clock (now : Q) (st : state) : state :=
  mkState (schema_created st) (scene_numbering st) (xem_numbering st)
          (xem_refresh st) now (remote st) (requests st).

Definition with_requests (l : list (endpoint * Z)) (st : state) : state :=
  mkState (schema_created st) (scene_numbering st) (xem_numbering st)
          (xem_refresh st) (clock st) (remote st) l.

(** ** Two monads: state, and state with exceptions *)

Definition M (A : Type) : Type := state -> A * state.

Definition ret {A : Type} (a : A) : M A := fun st => (a, st).

Definition bind {A B : Type} (m : M A) (f : A -> M B) : M B :=
  fun st => let (a, st') := m st in f a st'.

Inductive outcome (A : Type) : Type :=
| Returned (a : A)
| Raised.
Arguments Returned {A} a.
Arguments Raised {A}.

(** A computation that can raise; the state reached when it raises is
    kept. *)
Definition X (A : Type) : Type := M (outcome A).

Definition retX {A : Type} (a : A) : X A := ret (Returned a).

Definition bindX {A B : Type} (m : X A) (f : A -> X B) : X B :=
  fun st =>
    match m st with
    | (Returned a, st') => f a st'
    | (Raised, st') => (Raised, st')
    end.

Definition lift {A : Type} (m : M A) : X A :=
  fun st => let (a, st') := m st in (Returned a, st').

(** A pure operation that raises when it has no value. *)
Definition eval {A : Type} (o : option A) : X A :=
  fun st => match o with Some a => (Returned a, st) | None => (Raised, st) end.

Declare Scope py_scope.
Delimit Scope py_scope with py.
Notation "x <- m ;; k" := (bind m (fun x => k))
  (at level 61, m at next level, right associativity) : py_scope.
Notation "m ;; k" := (bind m (fun _ => k))
  (at level 61, right associativity) : py_scope.
Notation "x <-! m ;; k" := (bindX m (fun x => k))
  (at level 61, m at next level, right associativity) : py_scope.
Notation "m ;;! k" := (bindX m (fun _ => k))
  (at level 61, right associativity) : py_scope.
Local Open Scope py_scope.

(** ** The imported operations *)

(** [time.time()] *)
Definition time_time : M Q := fun st => (clock st, st).

(** [requests.get(url).json()] *)
Definition requests_get_json (ep : endpoint) (i : Z) : X json :=
  fun st =>
    let st' := with_requests (requests st ++ [(ep, i)]) st in
    match remote st ep i with
    | Raises => (Raised, st')
    | Body data => (Returned data, st')
    end.

(** [myDB.select] and [myDB.action] on [scene_numbering] *)
Definition myDB_select (p : numbering_row -> bool) : M (list numbering_row) :=
  fun st => (select p (scene_numbering st), st).

Definition myDB_select_index (p : numbering_row -> bool)
  : M (list numbering_row) :=
  fun st => (index_scan p (scene_numbering st), st).

Definition myDB_delete (p : numbering_row -> bool) : M unit :=
  fun st => (tt, with_scene_numbering (delete p (scene_numbering st)) st).

Definition myDB_insert (r : numbering_row) : X unit :=
  fun st =>
    match insert r (scene_numbering st) with
    | Some t => (Returned tt, with_scene_numbering t st)
    | None => (Raised, st)
    end.

(** [cacheDB.select] and [cacheDB.action] on [xem_numbering], [xem_refresh] *)
Definition cacheDB_select (p : numbering_row -> bool) : M (list numbering_row) :=
  fun st => (select p (xem_numbering st), st).

Definition cacheDB_select_index (p : numbering_row -> bool)
  : M (list numbering_row) :=
  fun st => (index_scan p (xem_numbering st), st).

Definition cacheDB_delete (p : numbering_row -> bool) : M unit :=
  fun st => (tt, with_xem_numbering (delete p (xem_numbering st)) st).

Definition cacheDB_insert (r : numbering_row) : X unit :=
  fun st =>
    match insert r (xem_numbering st) with
    | Some t => (Returned tt, with_xem_numbering t st)
    | None => (Raised, st)
    end.

Definition cacheDB_select_refresh (i : Z) : M (list refresh_row) :=
  fun st => (filter (fun r => refresh_indexer_id r =? i) (xem_refresh st), st).

Definition cacheDB_upsert_refresh (r : refresh_row) : M unit :=
  fun st => (tt, with_xem_refresh (upsert_refresh r (xem_refresh st)) st).

(** ** The functions of the module *)

Definition MAX_XEM_AGE_SECS : Z := 86400.

(** A (season, episode) tuple; a component is [None] only when the caller
    passed [None]. *)
Definition numbering : Type := (option Z * option Z)%type.

Definition _check_for_schema : M unit :=
  fun st =>
    if schema_created st then (tt, st)
    else (tt, with_schema_created true st).

Definition _xem_refresh_needed (indexer_id : option Z) : M bool :=
  match indexer_id with
  | None => ret false
  | Some i =>
      _check_for_schema ;;
      rows <- cacheDB_select_refresh i ;;
      match rows with
      | r :: _ =>
          now <- time_time ;;
          ret (negb (Qle_bool now
                       (inject_Z (Py.int (last_refreshed r) + MAX_XEM_AGE_SECS))))
      | [] => ret true
      end
  end.

(** The argument list
    [[indexer_id, entry['tvdb']['season'], entry['tvdb']['episode'],
      entry[k]['season'], entry[k]['episode']]]
    of the two INSERTs of the refresh loop, evaluated left to right. *)
Definition insert_args (i : Z) (entry : json) (k : string)
  : option numbering_row :=
  match getitem entry "tvdb" with
  | None => None
  | Some tvdb =>
      match getitem tvdb "season", getitem tvdb "episode" with
      | Some s, Some e =>
          match getitem entry k with
          | None => None
          | Some scene =>
              match getitem scene "season", getitem scene "episode" with
              | Some ss, Some se =>
                  match sql_integer s, sql_integer e,
                        sql_integer ss, sql_integer se with
                  | Some s', Some e', Some ss', Some se' =>
                      Some (mkRow i s' e' ss' se')
                  | _, _, _, _ => None
                  end
              | _, _ => None
              end
          end
      | _, _ => None
      end
  end.

(** The body of [for entry in result['data']]. *)
Definition insert_entry (i : Z) (entry : json) : X unit :=
  has_scene <-! eval (contains "scene" entry) ;;
  (if has_scene : bool
   then r <-! eval (insert_args i entry "scene") ;; cacheDB_insert r
   else retX tt) ;;!
  has_scene_2 <-! eval (contains "scene_2" entry) ;;
  (if has_scene_2 : bool
   then r <-! eval (insert_args i entry "scene_2") ;; cacheDB_insert r
   else retX tt).

Fixpoint insert_entries (i : Z) (entries : list json) : X unit :=
  match entries with
  | [] => retX tt
  | entry :: rest => insert_entry i entry ;;! insert_entries i rest
  end.

(** Lines 248-254: the statement [for entry in result['data']]. *)
Definition load_entries (i : Z) (result : json) : X unit :=
  data <-! eval (getitem result "data") ;;
  entries <-! eval (iter data) ;;
  insert_entries i entries.

(** Lines 246-258: the statement [if 'success' in result['result']]. *)
Definition load_result (i : Z) (result : json) : X unit :=
  indicator <-! eval (getitem result "result") ;;
  success <-! eval (contains "success" indicator) ;;
  if success : bool then
    lift (cacheDB_delete (show_is i)) ;;!
    load_entries i result
  else
    (* the log line formats result['message'] *)
    _ <-! eval (getitem result "message") ;;
    retX tt.

(** Lines 241-260: what is done with the value an endpoint returned. *)
Definition store_result (i : Z) (result : json) : X unit :=
  if truthy result then
    lift _check_for_schema ;;!
    now <-! lift time_time ;;
    lift (cacheDB_upsert_refresh (mkRefresh i now)) ;;!
    load_result i result
  else
    retX tt.

(** The [try] block of [_xem_refresh]. *)
Definition _xem_refresh_try (i : Z) : X unit :=
  data <-! requests_get_json TheXem i ;;
  if is_none_or_empty data then
    data <-! requests_get_json TVTumbler i ;;
    if is_none_or_empty data then retX tt     (* giving up *)
    else store_result i data
  else store_result i data.

(** [except Exception: ... return None] *)
Definition _xem_refresh (indexer_id : option Z) : M unit :=
  match indexer_id with
  | None => ret tt
  | Some i => _ <- _xem_refresh_try i ;; ret tt
  end.

Definition first_scene (rows : list numbering_row) : option numbering :=
  match rows with
  | r :: _ => Some (Some (row_scene_season r), Some (row_scene_episode r))
  | [] => None
  end.

Definition first_indexer (rows : list numbering_row) : option numbering :=
  match rows with
  | r :: _ => Some (Some (row_season r), Some (row_episode r))
  | [] => None
  end.

(** The value is a Python object, [None] or a tuple; this function never
    returns [None]. *)
Definition find_scene_numbering (indexer_id season episode : option Z)
  : M (option numbering) :=
  match indexer_id, season, episode with
  | Some i, Some s, Some e =>
      _check_for_schema ;;
      rows <- myDB_select (key_is i s e) ;;
      match first_scene rows with
      | Some found => ret (Some found)
      | None => ret (Some (season, episode))
      end
  | _, _, _ => ret (Some (season, episode))
  end.

Definition find_xem_numbering (indexer_id season episode : option Z)
  : M (option numbering) :=
  match indexer_id, season, episode with
  | Some i, Some s, Some e =>
      _check_for_schema ;;
      needed <- _xem_refresh_needed indexer_id ;;
      (if needed : bool then _xem_refresh indexer_id else ret tt) ;;
      rows <- cacheDB_select (key_is i s e) ;;
      ret (first_scene rows)
  | _, _, _ => ret None
  end.

(** [if result:] on a value that is [None] or a 2-tuple: a tuple of two
    components is true whatever it holds. *)
Definition get_scene_numbering (indexer_id season episode : option Z)
  (fallback_to_xem : bool) : M numbering :=
  match indexer_id, season, episode with
  | Some _, Some _, Some _ =>
      result <- find_scene_numbering indexer_id season episode ;;
      match result with
      | Some found => ret found
      | None =>
          if fallback_to_xem then
            xem_result <- find_xem_numbering indexer_id season episode ;;
            match xem_result with
            | Some found => ret found
            | None => ret (season, episode)
            end
          else ret (season, episode)
      end
  | _, _, _ => ret (season, episode)
  end.

Definition get_indexer_numbering_for_xem
  (indexer_id sceneSeason sceneEpisode : option Z) : M (option numbering) :=
  match indexer_id, sceneSeason, sceneEpisode with
  | Some i, Some ss, Some se =>
      _check_for_schema ;;
      needed <- _xem_refresh_needed indexer_id ;;
      (if needed : bool then _xem_refresh indexer_id else ret tt) ;;
      rows <- cacheDB_select_index (scene_is i ss se) ;;
      match first_indexer rows with
      | Some found => ret (Some found)
      | None => ret (Some (sceneSeason, sceneEpisode))
      end
  | _, _, _ => ret None
  end.

Definition get_indexer_numbering
  (indexer_id sceneSeason sceneEpisode : option Z) (fallback_to_xem : bool)
  : M (option numbering) :=
  match indexer_id, sceneSeason, sceneEpisode with
  | Some i, Some ss, Some se =>
      _check_for_schema ;;
      rows <- myDB_select_index (scene_is i ss se) ;;
      match first_indexer rows with
      | Some found => ret (Some found)
      | None =>
          if fallback_to_xem then
            get_indexer_numbering_for_xem indexer_id sceneSeason sceneEpisode
          else ret (Some (sceneSeason, sceneEpisode))
      end
  | _, _, _ => ret (Some (sceneSeason, sceneEpisode))
  end.

(** The value tells whether the call returned or let the exception of a
    failed INSERT escape. *)
Definition set_scene_numbering
  (indexer_id season episode sceneSeason sceneEpisode : option Z) : X unit :=
  match indexer_id, season, episode with
  | Some i, Some s, Some e =>
      lift _check_for_schema ;;!
      lift (myDB_delete (key_is i s e)) ;;!
      match sceneSeason, sceneEpisode with
      | Some ss, Some se => myDB_insert (mkRow i s e ss se)
      | _, _ => retX tt
      end
  | _, _, _ => retX tt
  end.

(** A dict from seasons to lists of scene seasons, as the list of its
    items. *)
Definition season_dict : Type := list (Z * list Z).

(** [d.setdefault(k, []).append(v)] *)
Fixpoint setdefault_append (k v : Z) (d : season_dict) : season_dict :=
  match d with
  | [] => [(k, [v])]
  | (k', vs) :: rest =>
      if k' =? k then (k', vs ++ [v]) :: rest
      else (k', vs) :: setdefault_append k v rest
  end.

Definition get_xem_numbering_for_season (indexer_id season : option Z)
  : M season_dict :=
  match indexer_id, season with
  | Some i, Some s =>
      _check_for_schema ;;
      needed <- _xem_refresh_needed indexer_id ;;
      (if needed : bool then _xem_refresh indexer_id else ret tt) ;;
      rows <- cacheDB_select_index (season_is i s) ;;
      match rows with
      | _ :: _ =>
          ret (fold_left
                 (fun result row =>
                    setdefault_append (row_season row) (row_scene_season row)
                                      result)
                 rows [])
      | [] => ret (setdefault_append s s [])
      end
  | _, _ => ret []
  end.

(** ** Auxiliary definitions for the statements *)

(** What [set_scene_numbering] leaves in [scene_numbering]. *)
Definition overrides_after_set (i s e : Z) (sceneSeason sceneEpisode : option Z)
  (t : list numbering_row) : list numbering_row :=
  match sceneSeason, sceneEpisode with
  | Some ss, Some se => delete (key_is i s e) t ++ [mkRow i s e ss se]
  | _, _ => delete (key_is i s e) t
  end.

(** A remote service that is down. *)
Definition offline : endpoint -> Z -> response := fun _ _ => Raises.

(** Show 1 has no override; thexem maps its episode 2x03 to scene 1x15 and
    the cache was refreshed a minute ago. *)
Definition st_cached : state :=
  mkState true [] [mkRow 1 2 3 1 15] [mkRefresh 1 (1000 # 1)] (1060 # 1)
          offline [].

(** Show 1 has the override 1x01 -> 2x02. *)
Definition st_override : state :=
  mkState true [mkRow 1 1 1 2 2] [] [] (0 # 1) offline [].

(** What the two GETs of [_xem_refresh] come to, as a function of the
    remote service: a request raised, both answers were [None] or [''], or a
    value was obtained. *)
Inductive fetched : Type :=
| FetchRaised
| FetchEmpty
| Fetched (data : json).

Definition fetch (rm : endpoint -> Z -> response) (i : Z) : fetched :=
  match rm TheXem i with
  | Raises => FetchRaised
  | Body data =>
      if is_none_or_empty data then
        match rm TVTumbler i with
        | Raises => FetchRaised
        | Body data' =>
            if is_none_or_empty data' then FetchEmpty else Fetched data'
        end
      else Fetched data
  end.

(** The GETs that [_xem_refresh] issues. *)
Definition fetch_log (rm : endpoint -> Z -> response) (i : Z)
  : list (endpoint * Z) :=
  match rm TheXem i with
  | Raises => [(TheXem, i)]
  | Body data =>
      if is_none_or_empty data then [(TheXem, i); (TVTumbler, i)]
      else [(TheXem, i)]
  end.

(** The rows of [xem_refresh] for a show. *)
Definition marker (i : Z) (st : state) : list refresh_row :=
  filter (fun r => refresh_indexer_id r =? i) (xem_refresh st).

(** The three tables of two states agree. *)
Definition same_tables (st st' : state) : Prop :=
  scene_numbering st' = scene_numbering st
  /\ xem_numbering st' = xem_numbering st
  /\ xem_refresh st' = xem_refresh st.

(** thexem answers for show 1 with a dict that says "success" and has no
    "data"; the cache holds one row of show 1 and no marker. *)
Definition st_no_data : state :=
  mkState true [] [mkRow 1 2 3 1 15] [] (1000 # 1)
          (fun ep _ =>
             match ep with
             | TheXem => Body (JObj [("result", JStr "success")])
             | TVTumbler => Raises
             end)
          [].

(** What loading the rows of show [i] may change between two states: the
    rows of [i] in [xem_numbering], nothing else. *)
Definition rows_frame (i : Z) (st st' : state) : Prop :=
  schema_created st' = schema_created st
  /\ scene_numbering st' = scene_numbering st
  /\ xem_refresh st' = xem_refresh st
  /\ clock st' = clock st
  /\ remote st' = remote st
  /\ requests st' = requests st
  /\ delete (show_is i) (xem_numbering st')
     = delete (show_is i) (xem_numbering st).

(** What storing a value obtained for show [i] may change: the flag, the
    rows of [i] in [xem_numbering] and the marker of [i], nothing else. *)
Definition frame (i : Z) (st st' : state) : Prop :=
  scene_numbering st' = scene_numbering st
  /\ clock st' = clock st
  /\ remote st' = remote st
  /\ requests st' = requests st
  /\ delete (show_is i) (xem_numbering st')
     = delete (show_is i) (xem_numbering st)
  /\ filter (fun r => negb (refresh_indexer_id r =? i)) (xem_refresh st')
     = filter (fun r => negb (refresh_indexer_id r =? i)) (xem_refresh st).

(** A computation relates every state to the state it ends in, whether it
    returns or raises. *)
Definition keeps (R : state -> state -> Prop) {A : Type} (m : X A) : Prop :=
  forall st, R st (snd (m st)).

(** An answer of thexem with two mappings. *)
Definition two_mappings : json :=
  JObj [("result", JStr "success");
        ("data",
         JArr [JObj [("tvdb", JObj [("season", JNum 2); ("episode", JNum 3)]);
                     ("scene", JObj [("season", JNum 1); ("episode", JNum 15)])];
               JObj [("tvdb", JObj [("season", JNum 2); ("episode", JNum 4)]);
                     ("scene", JObj [("season", JNum 1); ("episode", JNum 16)])]])].

(** Show 1 was never refreshed and thexem answers with [two_mappings]; the
    cache holds a row of show 1 and a row of show 9; it is 100.5 seconds
    past the epoch. *)
Definition st_stale : state :=
  mkState true [] [mkRow 1 1 1 1 1; mkRow 9 1 1 1 2] [] (201 # 2)
          (fun ep _ =>
             match ep with
             | TheXem => Body two_mappings
             | TVTumbler => Raises
             end)
          [].

(** A state with empty tables. *)
Definition blank : state := mkState true [] [] [] (0 # 1) offline [].

(** The rows that a value leaves in an empty cache: a function of the show
    and of the value alone. *)
Definition payload_rows (i : Z) (result : json) : list numbering_row :=
  xem_numbering (snd (load_result i result blank)).

(** A mapping as thexem documents it, and the entry of "data" that carries
    it. *)
Record mapping : Type := mkMapping {
  tvdb_season : Z;
  tvdb_episode : Z;
  scene_season : Z;
  scene_episode : Z
}.

Definition entry_json (m : mapping) : json :=
  JObj [("tvdb", JObj [("season", JNum (tvdb_season m));
                       ("episode", JNum (tvdb_episode m))]);
        ("scene", JObj [("season", JNum (scene_season m));
                        ("episode", JNum (scene_episode m))])].

Definition row_of (i : Z) (m : mapping) : numbering_row :=
  mkRow i (tvdb_season m) (tvdb_episode m) (scene_season m) (scene_episode m).

Definition tvdb_key (m : mapping) : Z * Z := (tvdb_season m, tvdb_episode m).

(** Two states whose [xem_numbering] differ by the leading rows [t0]. *)
Definition sim (t0 : list numbering_row) (sa sb : state) : Prop :=
  xem_numbering sa = t0 ++ xem_numbering sb.

(** A computation that cannot tell such states apart. *)
Definition lockstep (t0 : list numbering_row) {A : Type} (m : X A) : Prop :=
  forall sa sb,
    sim t0 sa sb ->
    fst (m sa) = fst (m sb) /\ sim t0 (snd (m sa)) (snd (m sb)).

(** An answer with a double episode: "scene" and "scene_2" under one tvdb
    key, followed by another mapping. *)
Definition double_mapping : json :=
  JObj [("result", JStr "success");
        ("data",
         JArr [JObj [("tvdb", JObj [("season", JNum 2); ("episode", JNum 3)]);
                     ("scene", JObj [("season", JNum 1); ("episode", JNum 15)]);
                     ("scene_2", JObj [("season", JNum 1); ("episode", JNum 16)])];
               JObj [("tvdb", JObj [("season", JNum 2); ("episode", JNum 4)]);
                     ("scene", JObj [("season", JNum 1); ("episode", JNum 17)])]])].

(** As [st_stale], with thexem answering [double_mapping]. *)
Definition st_double : state :=
  mkState true [] [mkRow 1 1 1 1 1; mkRow 9 1 1 1 2] [] (201 # 2)
          (fun ep _ =>
             match ep with
             | TheXem => Body double_mapping
             | TVTumbler => Raises
             end)
          [].

(** Season 2 of show 1 is cached with episodes in scene seasons 1, 1 and 2;
    the cache is fresh. *)
Definition st_split_season : state :=
  mkState true []
          [mkRow 1 2 1 1 13; mkRow 1 2 2 1 14; mkRow 1 3 1 2 1; mkRow 1 2 3 2 1;
           mkRow 9 2 1 5 1]
          [mkRefresh 1 (1000 # 1)] (1060 # 1) offline [].

Arguments overrides_after_set : simpl never.
Arguments get_scene_numbering : simpl never.
Arguments get_indexer_numbering : simpl never.
Arguments find_scene_numbering : simpl never.
Arguments find_xem_numbering : simpl never.
Arguments set_scene_numbering : simpl never.
Arguments _xem_refresh : simpl never.
Arguments _xem_refresh_needed : simpl never.
Arguments select : simpl never.
Arguments delete : simpl never.
Arguments index_scan : simpl never.

(** ** The dumps of a whole show *)

(** A dict from (season, episode) to (sceneSeason, sceneEpisode), as the
    list of its items. *)
Definition show_dict : Type := list ((Z * Z) * (Z * Z)).

Definition pair_eqb (a b : Z * Z) : bool :=
  (fst a =? fst b) && (snd a =? snd b).

(** [d[k] = v] *)
Fixpoint dict_assign (k v : Z * Z) (d : show_dict) : show_dict :=
  match d with
  | [] => [(k, v)]
  | (k', v') :: rest =>
      if pair_eqb k' k then (k', v) :: rest
      else (k', v') :: dict_assign k v rest
  end.

(** [d.get(k)] *)
Fixpoint dict_lookup (k : Z * Z) (d : show_dict) : option (Z * Z) :=
  match d with
  | [] => None
  | (k', v') :: rest => if pair_eqb k' k then Some v' else dict_lookup k rest
  end.

(** The loop [for row in rows: result[(season, episode)] = (scene_season,
    scene_episode)] of both dumps. *)
Definition rows_to_dict (rows : list numbering_row) : show_dict :=
  fold_left
    (fun result row =>
       dict_assign (row_season row, row_episode row)
                   (row_scene_season row, row_scene_episode row) result)
    rows [].

Definition get_scene_numbering_for_show (indexer_id : option Z) : M show_dict :=
  match indexer_id with
  | None => ret []
  | Some i =>
      _check_for_schema ;;
      rows <- myDB_select (show_is i) ;;
      ret (rows_to_dict (order_by_season_episode rows))
  end.

Definition get_xem_numbering_for_show (indexer_id : option Z) : M show_dict :=
  match indexer_id with
  | None => ret []
  | Some i =>
      _check_for_schema ;;
      needed <- _xem_refresh_needed indexer_id ;;
      (if needed : bool then _xem_refresh indexer_id else ret tt) ;;
      rows <- cacheDB_select (show_is i) ;;
      ret (rows_to_dict (order_by_season_episode rows))
  end.

(** ** Further auxiliary definitions *)

(** The PRIMARY KEY of a row, and the tables in which it is one. *)
Definition key3 (r : numbering_row) : Z * Z * Z :=
  (row_indexer_id r, row_season r, row_episode r).

Definition unique_keys (t : list numbering_row) : Prop := NoDup (map key3 t).


(** The scene pair of a row, as a lookup returns it. *)
Definition scene_of (r : numbering_row) : Z * Z :=
  (row_scene_season r, row_scene_episode r).

Definition as_numbering (p : Z * Z) : numbering := (Some (fst p), Some (snd p)).

(** Show 1 has two overrides and a cached mapping of another episode. *)
Definition st_two_overrides : state :=
  mkState true [mkRow 1 2 1 1 13; mkRow 1 1 1 1 1; mkRow 9 1 1 3 3]
          [mkRow 1 3 1 2 1] [mkRefresh 1 (1000 # 1)] (1060 # 1) offline [].

(** The marker of show 1 is two days old and the remote service is down. *)
Definition st_stale_offline : state :=
  mkState true [] [mkRow 1 2 3 1 15] [mkRefresh 1 (1000 # 1)] (200000 # 1)
          offline [].

(** thexem reports a failure for show 1. *)
Definition st_failure : state :=
  mkState true [] [mkRow 1 2 3 1 15] [] (1000 # 1)
          (fun ep _ =>
             match ep with
             | TheXem => Body (JObj [("result", JStr "failure");
                                     ("message", JStr "no show with the id")])
             | TVTumbler => Raises
             end)
          [].


(** The entry of a double episode: a mapping with a second scene pair under
    "scene_2". *)
Definition double_json (m : mapping) (ss2 se2 : Z) : json :=
  JObj [("tvdb", JObj [("season", JNum (tvdb_season m));
                       ("episode", JNum (tvdb_episode m))]);
        ("scene", JObj [("season", JNum (scene_season m));
                        ("episode", JNum (scene_episode m))]);
        ("scene_2", JObj [("season", JNum ss2); ("episode", JNum se2)])].

(** thexem answers for show 1 with "unsuccessful" and one mapping. *)
Definition st_unsuccessful : state :=
  mkState true [] [mkRow 1 1 1 1 1] [] (1000 # 1)
          (fun ep _ =>
             match ep with
             | TheXem =>
                 Body (JObj [("result", JStr "unsuccessful");
                             ("data", JArr [entry_json (mkMapping 2 3 1 15)])])
             | TVTumbler => Raises
             end)
          [].

(** A row whose (season, episode) is the key [k] of a dump, and the
    assignment that the loop of a dump makes for a row. *)
Definition has_pair (k : Z * Z) (r : numbering_row) : bool :=
  pair_eqb (row_season r, row_episode r) k.

Definition assign_row (result : show_dict) (row : numbering_row) : show_dict :=
  dict_assign (row_season row, row_episode row)
              (row_scene_season row, row_scene_episode row) result.

(** [xem_numbering] after a refresh of show [i], as a function of the remote
    service and of the table before. *)
Definition rows_after (i : Z) (rm : endpoint -> Z -> response)
  (t : list numbering_row) : list numbering_row :=
  match fetch rm i with
  | Fetched result =>
      if truthy result then
        match getitem result "result" with
        | Some indicator =>
            match contains "success" indicator with
            | Some true => delete (show_is i) t ++ payload_rows i result
            | _ => t
            end
        | None => t
        end
      else t
  | _ => t
  end.

(** The marker of show 1 was written at 1000.5. *)
Definition st_marked : state :=
  mkState true [] [] [mkRefresh 1 (2001 # 2)] (2001 # 2) offline [].

(** Season 2 of show 1 was cached with episode 3 before episode 1. *)
Definition st_unordered : state :=
  mkState true [] [mkRow 1 2 3 2 1; mkRow 1 2 1 1 1; mkRow 9 2 1 5 1]
          [mkRefresh 1 (1000 # 1)] (1060 # 1) offline [].

(** Show 1 has two overrides with the scene pair 2x02; the one of episode
    5x05 was set first. *)
Definition st_same_scene : state :=
  mkState true [mkRow 1 5 5 2 2; mkRow 1 1 1 2 2] [mkRow 1 3 1 4 4]
          [mkRefresh 1 (1000 # 1)] (1060 # 1) offline [].


(** ** Lemmas on tables *)

Section Tables.

Variable p : numbering_row -> bool.

Lemma select_delete (t : list numbering_row) : select p (delete p t) = [].
Proof.
  unfold select, delete.
  induction t as [|r t IH]; simpl; [reflexivity|].
  destruct (p r) eqn:E; simpl; [assumption|].
  rewrite E. assumption.
Qed.

Lemma select_app (t u : list numbering_row) :
  select p (t ++ u) = select p t ++ select p u.
Proof. apply filter_app. Qed.

Lemma delete_app (t u : list numbering_row) :
  delete p (t ++ u) = delete p t ++ delete p u.
Proof. apply filter_app. Qed.

Lemma delete_idem (t : list numbering_row) :
  delete p (delete p t) = delete p t.
Proof.
  unfold delete.
  induction t as [|r t IH]; simpl; [reflexivity|].
  destruct (p r) eqn:E; simpl; [assumption|].
  rewrite E. simpl. now rewrite IH.
Qed.

Lemma existsb_select_nil (t : list numbering_row) :
  select p t = [] -> existsb p t = false.
Proof.
  unfold select.
  induction t as [|r t IH]; simpl; [reflexivity|].
  destruct (p r); [discriminate|]. exact IH.
Qed.

Lemma select_nil_existsb (t : list numbering_row) :
  existsb p t = false -> select p t = [].
Proof.
  unfold select.
  induction t as [|r t IH]; simpl; [reflexivity|].
  destruct (p r); [discriminate|]. exact IH.
Qed.

End Tables.

Lemma key_is_refl (i s e ss se : Z) : key_is i s e (mkRow i s e ss se) = true.
Proof. unfold key_is; simpl. now rewrite !Z.eqb_refl. Qed.

Lemma scene_is_refl (i s e ss se : Z) :
  scene_is i ss se (mkRow i s e ss se) = true.
Proof. unfold scene_is; simpl. now rewrite !Z.eqb_refl. Qed.

Lemma key_is_show (i s e : Z) (r : numbering_row) :
  key_is i s e r = true -> show_is i r = true.
Proof.
  unfold key_is, show_is. intros H.
  apply andb_true_iff in H as [H _]. now apply andb_true_iff in H as [H _].
Qed.

(** An INSERT that follows the DELETE of its key goes through. *)
Lemma insert_after_delete (i s e ss se : Z) (t : list numbering_row) :
  insert (mkRow i s e ss se) (delete (key_is i s e) t)
  = Some (delete (key_is i s e) t ++ [mkRow i s e ss se]).
Proof.
  unfold insert; simpl.
  now rewrite (existsb_select_nil _ _ (select_delete (key_is i s e) t)).
Qed.

(** ** Lemmas on the order of the index *)

Lemma in_insert_sorted (r x : numbering_row) (l : list numbering_row) :
  In r (insert_sorted x l) <-> r = x \/ In r l.
Proof.
  induction l as [|y l IH]; simpl.
  - intuition.
  - destruct (row_le x y); simpl; [intuition|].
    rewrite IH. intuition.
Qed.

Lemma in_order_by (r : numbering_row) (l : list numbering_row) :
  In r (order_by_season_episode l) <-> In r l.
Proof.
  unfold order_by_season_episode.
  induction l as [|x l IH]; simpl; [reflexivity|].
  rewrite in_insert_sorted, IH. intuition.
Qed.

Lemma row_le_refl (a : numbering_row) : row_le a a = true.
Proof.
  unfold row_le. rewrite Z.eqb_refl, Z.leb_refl. simpl. apply orb_true_r.
Qed.

Lemma row_le_total (a b : numbering_row) :
  row_le a b = false -> row_le b a = true.
Proof.
  unfold row_le.
  destruct (Z.ltb_spec (row_season a) (row_season b));
    destruct (Z.eqb_spec (row_season a) (row_season b));
    destruct (Z.leb_spec (row_episode a) (row_episode b));
    destruct (Z.ltb_spec (row_season b) (row_season a));
    destruct (Z.eqb_spec (row_season b) (row_season a));
    destruct (Z.leb_spec (row_episode b) (row_episode a));
    simpl; intros Hab; try reflexivity; try discriminate Hab; lia.
Qed.

Lemma row_le_trans (a b c : numbering_row) :
  row_le a b = true -> row_le b c = true -> row_le a c = true.
Proof.
  unfold row_le.
  destruct (Z.ltb_spec (row_season a) (row_season b));
    destruct (Z.eqb_spec (row_season a) (row_season b));
    destruct (Z.leb_spec (row_episode a) (row_episode b));
    destruct (Z.ltb_spec (row_season b) (row_season c));
    destruct (Z.eqb_spec (row_season b) (row_season c));
    destruct (Z.leb_spec (row_episode b) (row_episode c));
    destruct (Z.ltb_spec (row_season a) (row_season c));
    destruct (Z.eqb_spec (row_season a) (row_season c));
    destruct (Z.leb_spec (row_episode a) (row_episode c));
    simpl; intros Hab Hbc; try reflexivity; try discriminate; lia.
Qed.

(** The first row of an ordered list is a least one. *)
Lemma order_by_head (l : list numbering_row) (r : numbering_row)
  (rest : list numbering_row) :
  order_by_season_episode l = r :: rest ->
  In r l /\ forall r', In r' l -> row_le r r' = true.
Proof.
  revert r rest. unfold order_by_season_episode.
  induction l as [|x l IH]; intros r rest H; simpl in H; [discriminate|].
  destruct (fold_right insert_sorted [] l) as [|h t] eqn:E.
  - simpl in H. injection H as <- <-.
    assert (L : l = []).
    { destruct l as [|y l']; [reflexivity|].
      assert (Y : In y (fold_right insert_sorted [] (y :: l')))
        by (apply (proj2 (in_order_by y (y :: l'))); now left).
      rewrite E in Y. destruct Y. }
    subst l. split; [now left|]. intros r' [<-|[]]. apply row_le_refl.
  - destruct (IH h t eq_refl) as [Hh Hmin]. simpl in H.
    destruct (row_le x h) eqn:X.
    + injection H as <- <-. split; [now left|].
      intros r' [<-|Hr']; [apply row_le_refl|].
      eapply row_le_trans; [exact X|now apply Hmin].
    + injection H as <- <-. split; [now right|].
      intros r' [<-|Hr']; [now apply row_le_total|now apply Hmin].
Qed.

Lemma order_by_nil (l : list numbering_row) :
  order_by_season_episode l = [] -> l = [].
Proof.
  intros H. destruct l as [|y l']; [reflexivity|].
  assert (Y : In y (order_by_season_episode (y :: l')))
    by (apply (proj2 (in_order_by y (y :: l'))); now left).
  rewrite H in Y. destruct Y.
Qed.

Lemma index_scan_nil (p : numbering_row -> bool) (t : list numbering_row) :
  select p t = [] -> index_scan p t = [].
Proof. unfold index_scan. intros ->. reflexivity. Qed.

Lemma index_scan_one (p : numbering_row -> bool) (t : list numbering_row)
  (r : numbering_row) :
  select p t = [r] -> index_scan p t = [r].
Proof. unfold index_scan. intros ->. reflexivity. Qed.

(** The first row of a scan is a matching row of the table, and a least
    one. *)
Lemma index_scan_head (p : numbering_row -> bool) (t : list numbering_row)
  (r : numbering_row) (rest : list numbering_row) :
  index_scan p t = r :: rest ->
  In r t /\ p r = true
  /\ forall r', In r' t -> p r' = true -> row_le r r' = true.
Proof.
  unfold index_scan, select. intros H.
  apply order_by_head in H as [Hin Hmin].
  apply filter_In in Hin as [Hin Hp]. repeat split; try assumption.
  intros r' Hr' Hp'. apply Hmin. apply filter_In. now split.
Qed.

Lemma index_scan_some (p : numbering_row -> bool) (t : list numbering_row)
  (r : numbering_row) :
  In r t -> p r = true -> exists r0 rest, index_scan p t = r0 :: rest.
Proof.
  intros Hin Hp. destruct (index_scan p t) as [|r0 rest] eqn:E; [|eauto].
  unfold index_scan in E. apply order_by_nil in E.
  assert (Y : In r (select p t)) by (apply filter_In; now split).
  rewrite E in Y. destruct Y.
Qed.

(** ** The overrides: [set_scene_numbering], [get_scene_numbering],
       [get_indexer_numbering] *)

Lemma set_scene_numbering_run (i s e : Z) (oss ose : option Z) (st : state) :
  set_scene_numbering (Some i) (Some s) (Some e) oss ose st
  = (Returned tt,
     with_scene_numbering
       (overrides_after_set i s e oss ose (scene_numbering st))
       (with_schema_created true st)).
Proof.
  unfold set_scene_numbering, bindX, lift, _check_for_schema, myDB_delete,
    myDB_insert, retX, ret, overrides_after_set.
  destruct st as [fl ov xn xr ck rm rq]; simpl.
  destruct fl; simpl.
  - destruct oss as [ss|], ose as [se|]; simpl; try reflexivity.
    now rewrite insert_after_delete.
  - destruct oss as [ss|], ose as [se|]; simpl; try reflexivity.
    now rewrite insert_after_delete.
Qed.

Lemma find_scene_numbering_run (i s e : Z) (st : state) :
  find_scene_numbering (Some i) (Some s) (Some e) st
  = (match first_scene (select (key_is i s e) (scene_numbering st)) with
     | Some found => Some found
     | None => Some (Some s, Some e)
     end,
     with_schema_created true st).
Proof.
  unfold find_scene_numbering, bind, _check_for_schema, myDB_select, ret.
  destruct st as [fl ov xn xr ck rm rq]; simpl.
  destruct fl; simpl; destruct (first_scene (select (key_is i s e) ov));
    reflexivity.
Qed.

(** [find_scene_numbering] answers with a tuple on every input, so the
    [else] branch of [get_scene_numbering] is never taken. *)
Lemma get_scene_numbering_run (i s e : Z) (fallback_to_xem : bool) (st : state) :
  get_scene_numbering (Some i) (Some s) (Some e) fallback_to_xem st
  = (match first_scene (select (key_is i s e) (scene_numbering st)) with
     | Some found => found
     | None => (Some s, Some e)
     end,
     with_schema_created true st).
Proof.
  unfold get_scene_numbering, bind.
  rewrite find_scene_numbering_run.
  destruct (first_scene (select (key_is i s e) (scene_numbering st)));
    reflexivity.
Qed.

(** C5. With all three arguments given and no override for the key,
    [get_scene_numbering] returns the pair it was given, whatever the flag
    [fallback_to_xem] and whatever the cache holds (in particular when the
    cache has no row for the key): the caller always gets a pair. *)
Theorem get_scene_numbering_identity
  (st : state) (i s e : Z) (fallback_to_xem : bool) :
  select (key_is i s e) (scene_numbering st) = [] ->
  select (key_is i s e) (xem_numbering st) = [] ->
  fst (get_scene_numbering (Some i) (Some s) (Some e) fallback_to_xem st)
  = (Some s, Some e).
Proof.
  intros Hov _. rewrite get_scene_numbering_run, Hov. reflexivity.
Qed.

Lemma get_scene_numbering_identity_witness :
  fst (get_scene_numbering (Some 7) (Some 1) (Some 1) true st_override)
  = (Some 1, Some 1).
Proof.
  apply (get_scene_numbering_identity st_override 7 1 1 true); reflexivity.
Defined.

Lemma get_indexer_numbering_found
  (i ss se : Z) (fallback_to_xem : bool) (found : numbering) (st : state) :
  first_indexer (index_scan (scene_is i ss se) (scene_numbering st))
  = Some found ->
  get_indexer_numbering (Some i) (Some ss) (Some se) fallback_to_xem st
  = (Some found, with_schema_created true st).
Proof.
  intros H.
  unfold get_indexer_numbering, bind, _check_for_schema, myDB_select_index, ret.
  destruct st as [fl ov xn xr ck rm rq]; simpl in *.
  destruct fl; simpl; rewrite H; reflexivity.
Qed.

Lemma select_key_after_set (i s e : Z) (oss ose : option Z)
  (t : list numbering_row) :
  select (key_is i s e) (overrides_after_set i s e oss ose t)
  = match oss, ose with
    | Some ss, Some se => [mkRow i s e ss se]
    | _, _ => []
    end.
Proof.
  unfold overrides_after_set.
  destruct oss as [ss|], ose as [se|]; try apply select_delete.
  rewrite select_app, select_delete. unfold select; simpl.
  now rewrite key_is_refl.
Qed.

Lemma delete_key_after_set (i s e : Z) (oss ose : option Z)
  (t : list numbering_row) :
  delete (key_is i s e) (overrides_after_set i s e oss ose t)
  = delete (key_is i s e) t.
Proof.
  unfold overrides_after_set.
  destruct oss as [ss|], ose as [se|]; try apply delete_idem.
  rewrite delete_app, delete_idem. unfold delete at 2; simpl.
  rewrite key_is_refl; simpl. apply app_nil_r.
Qed.

(** C3, as the code has it.  With show, season and episode given,
    [set_scene_numbering] returns normally, leaves the rows of every other
    key of [scene_numbering] and both cache tables as they were, and for the
    key itself: when both scene values are given, exactly one row, mapping
    the key to that pair (DELETE, then INSERT); when one of them or both are
    [None], no row (DELETE only). *)
Theorem set_scene_numbering_replaces
  (st : state) (i s e : Z) (sceneSeason sceneEpisode : option Z) :
  let r := set_scene_numbering (Some i) (Some s) (Some e)
                               sceneSeason sceneEpisode st in
  fst r = Returned tt
  /\ select (key_is i s e) (scene_numbering (snd r))
     = match sceneSeason, sceneEpisode with
       | Some ss, Some se => [mkRow i s e ss se]
       | _, _ => []
       end
  /\ delete (key_is i s e) (scene_numbering (snd r))
     = delete (key_is i s e) (scene_numbering st)
  /\ xem_numbering (snd r) = xem_numbering st
  /\ xem_refresh (snd r) = xem_refresh st.
Proof.
  cbv zeta. rewrite set_scene_numbering_run. simpl.
  rewrite select_key_after_set, delete_key_after_set. auto.
Qed.

(** C3 as stated fails: a call with one scene value given and the other
    [None] is one of the "other combinations", and it leaves no row for the
    key instead of one. *)
Lemma set_scene_numbering_half_given :
  ~ (forall (st : state) (i s e : Z) (sceneSeason sceneEpisode : option Z),
        (sceneSeason <> None \/ sceneEpisode <> None) ->
        List.length (select (key_is i s e)
                       (scene_numbering
                     (snd (set_scene_numbering (Some i) (Some s) (Some e)
                             sceneSeason sceneEpisode st))))
        = 1%nat).
Proof.
  intros H.
  specialize (H st_override 1 1 1 (Some 5) None).
  assert (G : Some 5 <> None \/ @None Z <> None) by (left; discriminate).
  specialize (H G). vm_compute in H. discriminate.
Qed.

(** C6.  After [set_scene_numbering] with a scene pair, the lookup of the
    same key returns that pair: from every state the override was set in,
    with any rows and markers put in the cache afterwards, whatever the
    clock and the remote service, with or without [fallback_to_xem]. *)
Theorem override_wins
  (st : state) (i s e ss se : Z) (fallback_to_xem : bool)
  (cache : list numbering_row) (markers : list refresh_row) :
  let st1 := snd (set_scene_numbering (Some i) (Some s) (Some e)
                                      (Some ss) (Some se) st) in
  fst (get_scene_numbering (Some i) (Some s) (Some e) fallback_to_xem
         (with_xem_refresh markers (with_xem_numbering cache st1)))
  = (Some ss, Some se).
Proof.
  cbv zeta. rewrite set_scene_numbering_run, get_scene_numbering_run. simpl.
  now rewrite select_key_after_set.
Qed.

Lemma delete_all (p : numbering_row -> bool) (t : list numbering_row) :
  (forall r, In r t -> p r = true) -> delete p t = [].
Proof.
  unfold delete.
  induction t as [|r t IH]; intros H; simpl; [reflexivity|].
  rewrite (H r (or_introl eq_refl)); simpl.
  apply IH. intros r' Hr'. apply H. now right.
Qed.

(** C7. When the override store holds nothing but the row written by
    [set_scene_numbering], [get_indexer_numbering] applied to the result of
    [get_scene_numbering] gives back (s, e); the cache tables and the remote
    service play no part. *)
Theorem get_indexer_numbering_inverse
  (st : state) (i s e ss se : Z) (fb1 fb2 : bool) :
  (forall r, In r (scene_numbering st) -> key_is i s e r = true) ->
  let st1 := snd (set_scene_numbering (Some i) (Some s) (Some e)
                                      (Some ss) (Some se) st) in
  let scene := get_scene_numbering (Some i) (Some s) (Some e) fb1 st1 in
  scene_numbering st1 = [mkRow i s e ss se]
  /\ fst (get_indexer_numbering (Some i) (fst (fst scene)) (snd (fst scene))
            fb2 (snd scene))
     = Some (Some s, Some e).
Proof.
  intros Honly. cbv zeta.
  rewrite set_scene_numbering_run, get_scene_numbering_run. simpl.
  rewrite select_key_after_set. simpl.
  unfold overrides_after_set. rewrite (delete_all _ _ Honly). simpl.
  split; [reflexivity|].
  rewrite (get_indexer_numbering_found i ss se fb2 (Some s, Some e));
    [reflexivity|].
  simpl. rewrite (index_scan_one _ _ (mkRow i s e ss se)); [reflexivity|].
  unfold select; simpl. now rewrite scene_is_refl.
Qed.

Lemma get_indexer_numbering_inverse_witness :
  scene_numbering
    (snd (set_scene_numbering (Some 1) (Some 1) (Some 1) (Some 1) (Some 101)
            st_override))
  = [mkRow 1 1 1 1 101]
  /\ fst (get_indexer_numbering (Some 1) (Some 1) (Some 101) true
            (snd (get_scene_numbering (Some 1) (Some 1) (Some 1) true
                    (snd (set_scene_numbering (Some 1) (Some 1) (Some 1)
                            (Some 1) (Some 101) st_override)))))
     = Some (Some 1, Some 1).
Proof.
  apply (get_indexer_numbering_inverse st_override 1 1 1 1 101 true true).
  intros r [<-|[]]. reflexivity.
Defined.

(** C1 on the code: show 1 has no override for 2x03, the cache is fresh and
    maps 2x03 to 1x15 ([find_xem_numbering] finds it without a refresh), and
    [get_scene_numbering] with [fallback_to_xem] returns (2, 3): what
    [find_scene_numbering] returns for "no override" is the input tuple, not
    [None], and a tuple is true. *)
Theorem get_scene_numbering_skips_xem :
  select (key_is 1 2 3) (scene_numbering st_cached) = []
  /\ fst (_xem_refresh_needed (Some 1) st_cached) = false
  /\ fst (find_xem_numbering (Some 1) (Some 2) (Some 3) st_cached)
     = Some (Some 1, Some 15)
  /\ fst (find_scene_numbering (Some 1) (Some 2) (Some 3) st_cached)
     = Some (Some 2, Some 3)
  /\ fst (get_scene_numbering (Some 1) (Some 2) (Some 3) true st_cached)
     = (Some 2, Some 3).
Proof. repeat split; vm_compute; reflexivity. Qed.

(** ** The refresh: [_xem_refresh] *)

Lemma xem_refresh_try_fetch (i : Z) (st : state) :
  _xem_refresh_try i st
  = let st1 := with_requests (requests st ++ fetch_log (remote st) i) st in
    match fetch (remote st) i with
    | FetchRaised => (Raised, st1)
    | FetchEmpty => (Returned tt, st1)
    | Fetched data => store_result i data st1
    end.
Proof.
  unfold _xem_refresh_try, bindX, requests_get_json, fetch, fetch_log, retX, ret.
  destruct st as [fl ov xn xr ck rm rq]; simpl.
  destruct (rm TheXem i) as [|data]; [reflexivity|].
  destruct (is_none_or_empty data); [|reflexivity].
  unfold with_requests; simpl.
  destruct (rm TVTumbler i) as [|data']; simpl.
  - now rewrite <- app_assoc.
  - destruct (is_none_or_empty data'); now rewrite <- app_assoc.
Qed.

Lemma xem_refresh_run (i : Z) (st : state) :
  _xem_refresh (Some i) st = (tt, snd (_xem_refresh_try i st)).
Proof.
  unfold _xem_refresh, bind, ret. now destruct (_xem_refresh_try i st).
Qed.

(** When no value is obtained, nothing but the log of GETs changes. *)
Lemma xem_refresh_try_no_value (i : Z) (st : state) :
  (forall data, fetch (remote st) i <> Fetched data) ->
  snd (_xem_refresh_try i st)
  = with_requests (requests st ++ fetch_log (remote st) i) st.
Proof.
  intros H. rewrite xem_refresh_try_fetch. cbv zeta.
  destruct (fetch (remote st) i) as [| |data]; try reflexivity.
  now destruct (H data).
Qed.

(** C2, as the code has it: when a request raises (the GET or the decoding
    of its body, at the first endpoint, or at the second after an empty
    answer of the first), the attempt ends in the [except] clause with the
    three tables as they were: no marker is written, no cached row is
    touched, and the show is as stale as before. *)
Theorem failed_fetch_leaves_tables (st : state) (i : Z) :
  fetch (remote st) i = FetchRaised ->
  let r := _xem_refresh_try i st in
  let st' := snd (_xem_refresh (Some i) st) in
  fst r = Raised
  /\ same_tables st st'
  /\ fst (_xem_refresh_needed (Some i) st')
     = fst (_xem_refresh_needed (Some i) st).
Proof.
  intros H. cbv zeta. rewrite xem_refresh_run, xem_refresh_try_fetch.
  cbv zeta. rewrite H. simpl.
  repeat split.
  unfold _xem_refresh_needed, bind, _check_for_schema, cacheDB_select_refresh,
    time_time, ret.
  destruct st as [fl ov xn xr ck rm rq]; simpl.
  destruct fl; simpl;
    destruct (filter (fun r => refresh_indexer_id r =? i) xr); reflexivity.
Qed.

Lemma failed_fetch_leaves_tables_witness :
  fst (_xem_refresh_try 1 st_cached) = Raised
  /\ same_tables st_cached (snd (_xem_refresh (Some 1) st_cached))
  /\ fst (_xem_refresh_needed (Some 1) (snd (_xem_refresh (Some 1) st_cached)))
     = fst (_xem_refresh_needed (Some 1) st_cached).
Proof.
  apply (failed_fetch_leaves_tables st_cached 1). reflexivity.
Defined.

(** C2 as stated fails: an exception raised after the value was obtained
    comes after the marker was written, and here after the DELETE too.  The
    answer has no "data": the attempt raises, the marker of show 1 is
    written and its cached row is gone. *)
Lemma late_exception_keeps_marker :
  ~ (forall (st : state) (i : Z),
        fst (_xem_refresh_try i st) = Raised ->
        let st' := snd (_xem_refresh (Some i) st) in
        xem_refresh st' = xem_refresh st
        /\ select (show_is i) (xem_numbering st')
           = select (show_is i) (xem_numbering st)).
Proof.
  intros H.
  specialize (H st_no_data 1 eq_refl). cbv zeta in H.
  destruct H as [H _]. vm_compute in H. discriminate.
Qed.

(** *** What a refresh leaves alone *)

Section Keeps.

Variable R : state -> state -> Prop.
Hypothesis R_refl : forall st, R st st.
Hypothesis R_trans : forall st1 st2 st3, R st1 st2 -> R st2 st3 -> R st1 st3.

Lemma keeps_retX {A : Type} (a : A) : keeps R (retX a).
Proof. intros st. apply R_refl. Qed.

Lemma keeps_eval {A : Type} (o : option A) : keeps R (eval o).
Proof. intros st. unfold eval. destruct o; apply R_refl. Qed.

Lemma keeps_bindX {A B : Type} (m : X A) (f : A -> X B) :
  keeps R m -> (forall a, keeps R (f a)) -> keeps R (bindX m f).
Proof.
  intros Hm Hf st. unfold bindX.
  specialize (Hm st). destruct (m st) as [[a|] st1]; simpl in Hm.
  - eapply R_trans; [exact Hm|apply Hf].
  - exact Hm.
Qed.

End Keeps.

Lemma rows_frame_refl (i : Z) (st : state) : rows_frame i st st.
Proof. unfold rows_frame; auto 10. Qed.

Lemma rows_frame_trans (i : Z) (st1 st2 st3 : state) :
  rows_frame i st1 st2 -> rows_frame i st2 st3 -> rows_frame i st1 st3.
Proof.
  unfold rows_frame.
  intros (A1 & A2 & A3 & A4 & A5 & A6 & A7) (B1 & B2 & B3 & B4 & B5 & B6 & B7).
  repeat split; etransitivity; eassumption.
Qed.

Lemma frame_refl (i : Z) (st : state) : frame i st st.
Proof. unfold frame; auto 10. Qed.

Lemma frame_trans (i : Z) (st1 st2 st3 : state) :
  frame i st1 st2 -> frame i st2 st3 -> frame i st1 st3.
Proof.
  unfold frame.
  intros (A1 & A2 & A3 & A4 & A5 & A6) (B1 & B2 & B3 & B4 & B5 & B6).
  repeat split; etransitivity; eassumption.
Qed.

Lemma rows_frame_frame (i : Z) (st st' : state) :
  rows_frame i st st' -> frame i st st'.
Proof.
  unfold rows_frame, frame. intros (A1 & A2 & A3 & A4 & A5 & A6 & A7).
  rewrite A3. auto 10.
Qed.

Lemma keeps_delete (i : Z) :
  keeps (rows_frame i) (lift (cacheDB_delete (show_is i))).
Proof.
  intros st. unfold lift, cacheDB_delete, rows_frame; simpl.
  repeat split. apply delete_idem.
Qed.

Lemma keeps_insert (i : Z) (r : numbering_row) :
  row_indexer_id r = i -> keeps (rows_frame i) (cacheDB_insert r).
Proof.
  intros Hr st. unfold cacheDB_insert.
  destruct (insert r (xem_numbering st)) as [t|] eqn:E; simpl;
    [|apply rows_frame_refl].
  unfold insert in E.
  destruct (existsb _ (xem_numbering st)); [discriminate|].
  injection E as <-. unfold rows_frame; simpl. repeat split.
  rewrite delete_app. unfold delete at 2; simpl.
  unfold show_is. rewrite Hr, Z.eqb_refl; simpl. apply app_nil_r.
Qed.

Lemma insert_args_indexer_id (i : Z) (entry : json) (k : string)
  (r : numbering_row) :
  insert_args i entry k = Some r -> row_indexer_id r = i.
Proof.
  unfold insert_args. intros H.
  repeat match type of H with
         | match ?x with _ => _ end = _ => destruct x; try discriminate
         end.
  now injection H as <-.
Qed.

Lemma keeps_insert_args (i : Z) (entry : json) (k : string) :
  keeps (rows_frame i) (r <-! eval (insert_args i entry k) ;; cacheDB_insert r).
Proof.
  intros st. unfold bindX, eval.
  destruct (insert_args i entry k) as [r|] eqn:E; [|apply rows_frame_refl].
  apply keeps_insert. eapply insert_args_indexer_id; eassumption.
Qed.

Lemma rows_retX (i : Z) {A : Type} (a : A) : keeps (rows_frame i) (retX a).
Proof. apply keeps_retX, rows_frame_refl. Qed.

Lemma rows_eval (i : Z) {A : Type} (o : option A) :
  keeps (rows_frame i) (eval o).
Proof. apply keeps_eval, rows_frame_refl. Qed.

Lemma rows_bindX (i : Z) {A B : Type} (m : X A) (f : A -> X B) :
  keeps (rows_frame i) m -> (forall a, keeps (rows_frame i) (f a)) ->
  keeps (rows_frame i) (bindX m f).
Proof. apply keeps_bindX, rows_frame_trans. Qed.

Lemma keeps_insert_entry (i : Z) (entry : json) :
  keeps (rows_frame i) (insert_entry i entry).
Proof.
  unfold insert_entry.
  apply rows_bindX; [apply rows_eval|]. intros has_scene.
  apply rows_bindX.
  - destruct has_scene; [apply keeps_insert_args|apply rows_retX].
  - intros _. apply rows_bindX; [apply rows_eval|]. intros has_scene_2.
    destruct has_scene_2; [apply keeps_insert_args|apply rows_retX].
Qed.

Lemma keeps_insert_entries (i : Z) (entries : list json) :
  keeps (rows_frame i) (insert_entries i entries).
Proof.
  induction entries as [|entry rest IH]; simpl.
  - apply rows_retX.
  - apply rows_bindX; [apply keeps_insert_entry|]. intros _. exact IH.
Qed.

Lemma keeps_load_entries (i : Z) (result : json) :
  keeps (rows_frame i) (load_entries i result).
Proof.
  unfold load_entries.
  apply rows_bindX; [apply rows_eval|]. intros data.
  apply rows_bindX; [apply rows_eval|]. intros entries.
  apply keeps_insert_entries.
Qed.

Lemma keeps_load_result (i : Z) (result : json) :
  keeps (rows_frame i) (load_result i result).
Proof.
  unfold load_result.
  apply rows_bindX; [apply rows_eval|]. intros indicator.
  apply rows_bindX; [apply rows_eval|]. intros success.
  destruct success.
  - apply rows_bindX; [apply keeps_delete|]. intros _.
    apply keeps_load_entries.
  - apply rows_bindX; [apply rows_eval|]. intros _. apply rows_retX.
Qed.

(** Up to the marker: the state in which [load_result] starts. *)
Lemma store_result_run (i : Z) (result : json) (st : state) :
  truthy result = true ->
  store_result i result st
  = load_result i result
      (with_xem_refresh
         (upsert_refresh (mkRefresh i (clock st)) (xem_refresh st))
         (with_schema_created true st)).
Proof.
  intros H. unfold store_result. rewrite H.
  unfold bindX, lift, _check_for_schema, time_time, cacheDB_upsert_refresh.
  destruct st as [fl ov xn xr ck rm rq]; simpl.
  destruct fl; reflexivity.
Qed.

Lemma store_result_falsy (i : Z) (result : json) (st : state) :
  truthy result = false -> store_result i result st = (Returned tt, st).
Proof. intros H. unfold store_result. now rewrite H. Qed.

Lemma filter_negb_filter {A : Type} (p : A -> bool) (l : list A) :
  filter (fun x => negb (p x)) (filter (fun x => negb (p x)) l)
  = filter (fun x => negb (p x)) l.
Proof.
  induction l as [|x l IH]; simpl; [reflexivity|].
  destruct (p x) eqn:E; simpl; [assumption|].
  rewrite E; simpl. now rewrite IH.
Qed.

Lemma filter_filter_negb {A : Type} (p : A -> bool) (l : list A) :
  filter p (filter (fun x => negb (p x)) l) = [].
Proof.
  induction l as [|x l IH]; simpl; [reflexivity|].
  destruct (p x) eqn:E; simpl; [assumption|].
  rewrite E; simpl. exact IH.
Qed.

Lemma keeps_store_result (i : Z) (result : json) :
  keeps (frame i) (store_result i result).
Proof.
  intros st. destruct (truthy result) eqn:T.
  - rewrite store_result_run by exact T.
    eapply frame_trans;
      [|apply rows_frame_frame, (keeps_load_result i result)].
    unfold frame, upsert_refresh; simpl. repeat split.
    rewrite filter_app; simpl. rewrite Z.eqb_refl; simpl.
    rewrite app_nil_r. apply filter_negb_filter.
  - rewrite store_result_falsy by exact T. apply frame_refl.
Qed.

(** A value that is true gets the marker of the show written, with the time
    of the call, whatever happens while the value is looked into. *)
Lemma store_result_marker (i : Z) (result : json) (st : state) :
  truthy result = true ->
  marker i (snd (store_result i result st)) = [mkRefresh i (clock st)].
Proof.
  intros T. rewrite store_result_run by exact T.
  destruct (keeps_load_result i result
              (with_xem_refresh
                 (upsert_refresh (mkRefresh i (clock st)) (xem_refresh st))
                 (with_schema_created true st)))
    as (_ & _ & E & _).
  unfold marker. rewrite E. simpl. unfold upsert_refresh; simpl.
  rewrite filter_app, filter_filter_negb; simpl. now rewrite Z.eqb_refl.
Qed.

(** A refresh of show [i] adds its GETs to the log and, besides, changes
    at most the rows and the marker of [i] in the cache. *)
Lemma xem_refresh_frame (i : Z) (st : state) :
  let st' := snd (_xem_refresh (Some i) st) in
  requests st' = requests st ++ fetch_log (remote st) i
  /\ scene_numbering st' = scene_numbering st
  /\ clock st' = clock st
  /\ remote st' = remote st
  /\ delete (show_is i) (xem_numbering st')
     = delete (show_is i) (xem_numbering st)
  /\ filter (fun r => negb (refresh_indexer_id r =? i)) (xem_refresh st')
     = filter (fun r => negb (refresh_indexer_id r =? i)) (xem_refresh st).
Proof.
  cbv zeta. rewrite xem_refresh_run, xem_refresh_try_fetch. cbv zeta.
  set (st1 := with_requests _ st).
  assert (F : frame i st1
                (snd match fetch (remote st) i with
                     | FetchRaised => (Raised, st1)
                     | FetchEmpty => (Returned tt, st1)
                     | Fetched data => store_result i data st1
                     end)).
  { destruct (fetch (remote st) i); try apply frame_refl.
    apply keeps_store_result. }
  destruct F as (F1 & F2 & F3 & F4 & F5 & F6). simpl.
  rewrite F1, F2, F3, F4, F5, F6. subst st1. simpl. auto 10.
Qed.



(** ** Staleness: [_xem_refresh_needed] *)

Lemma check_for_schema_run (st : state) :
  _check_for_schema st = (tt, with_schema_created true st).
Proof.
  unfold _check_for_schema. destruct st as [fl ov xn xr ck rm rq]; simpl.
  destruct fl; reflexivity.
Qed.

Lemma xem_refresh_needed_run (i : Z) (st : state) :
  _xem_refresh_needed (Some i) st
  = (match marker i st with
     | r :: _ =>
         negb (Qle_bool (clock st)
                 (inject_Z (Py.int (last_refreshed r) + MAX_XEM_AGE_SECS)))
     | [] => true
     end,
     with_schema_created true st).
Proof.
  unfold _xem_refresh_needed, bind, _check_for_schema, cacheDB_select_refresh,
    time_time, ret, marker.
  destruct st as [fl ov xn xr ck rm rq]; simpl.
  destruct fl; simpl;
    destruct (filter (fun r => refresh_indexer_id r =? i) xr); reflexivity.
Qed.

(** [int] takes off less than a second. *)
Lemma int_above (q : Q) : (q < inject_Z (Py.int q + 1))%Q.
Proof.
  unfold Py.int. destruct (Qle_bool 0 q).
  - apply Qlt_floor.
  - apply Qle_lt_trans with (inject_Z (Qceiling q)); [apply Qle_ceiling|].
    rewrite <- Zlt_Qlt. lia.
Qed.

Lemma within_86399 (m now : Q) :
  (now <= m + inject_Z 86399)%Q ->
  (now <= inject_Z (Py.int m + MAX_XEM_AGE_SECS))%Q.
Proof.
  intros H. pose proof (int_above m) as G.
  replace (Py.int m + MAX_XEM_AGE_SECS) with ((Py.int m + 1) + 86399)
    by (unfold MAX_XEM_AGE_SECS; lia).
  rewrite inject_Z_plus. lra.
Qed.

(** A lookup in the cache for a show that is fresh issues no GET and leaves
    the tables as they are. *)
Lemma find_xem_numbering_fresh (i s e : Z) (st : state) :
  fst (_xem_refresh_needed (Some i) st) = false ->
  find_xem_numbering (Some i) (Some s) (Some e) st
  = (first_scene (select (key_is i s e) (xem_numbering st)),
     with_schema_created true st).
Proof.
  intros H. unfold find_xem_numbering, bind.
  rewrite xem_refresh_needed_run in H. simpl in H.
  rewrite check_for_schema_run, xem_refresh_needed_run.
  unfold marker in *. simpl. rewrite H. reflexivity.
Qed.

Lemma get_indexer_numbering_for_xem_fresh (i ss se : Z) (st : state) :
  fst (_xem_refresh_needed (Some i) st) = false ->
  snd (get_indexer_numbering_for_xem (Some i) (Some ss) (Some se) st)
  = with_schema_created true st.
Proof.
  intros H. unfold get_indexer_numbering_for_xem, bind.
  rewrite xem_refresh_needed_run in H. simpl in H.
  rewrite check_for_schema_run, xem_refresh_needed_run.
  unfold marker in *. simpl. rewrite H. unfold cacheDB_select_index, ret.
  now destruct (first_indexer _).
Qed.

Lemma get_xem_numbering_for_season_fresh (i s : Z) (st : state) :
  fst (_xem_refresh_needed (Some i) st) = false ->
  snd (get_xem_numbering_for_season (Some i) (Some s) st)
  = with_schema_created true st.
Proof.
  intros H. unfold get_xem_numbering_for_season, bind.
  rewrite xem_refresh_needed_run in H. simpl in H.
  rewrite check_for_schema_run, xem_refresh_needed_run.
  unfold marker in *. simpl. rewrite H. unfold cacheDB_select_index, ret.
  now destruct (index_scan _ _).
Qed.

(** C8, as the code has it.  A show without a marker is stale.  A refresh
    that obtains a value that is true writes the marker with the time of
    the call.  From then on, at every time up to 86400 seconds after the
    marker truncated to whole seconds, hence at every time up to 86399
    seconds after the marker, the show is fresh and a lookup in the cache,
    by key, by scene pair or by season, issues no GET. *)
Theorem marker_window (st : state) (i : Z) :
  (marker i st = [] -> fst (_xem_refresh_needed (Some i) st) = true)
  /\ forall data : json,
       fetch (remote st) i = Fetched data ->
       truthy data = true ->
       let st1 := snd (_xem_refresh (Some i) st) in
       marker i st1 = [mkRefresh i (clock st)]
       /\ forall (now : Q) (s e : Z),
            (now <= inject_Z (Py.int (clock st) + MAX_XEM_AGE_SECS))%Q
            \/ (now <= clock st + inject_Z 86399)%Q ->
            let st2 := with_clock now st1 in
            fst (_xem_refresh_needed (Some i) st2) = false
            /\ requests (snd (find_xem_numbering (Some i) (Some s) (Some e) st2))
               = requests st1
            /\ requests (snd (get_indexer_numbering_for_xem
                                (Some i) (Some s) (Some e) st2))
               = requests st1
            /\ requests (snd (get_xem_numbering_for_season (Some i) (Some s) st2))
               = requests st1.
Proof.
  split.
  - intros H. rewrite xem_refresh_needed_run. simpl. now rewrite H.
  - intros data Hf Ht. cbv zeta.
    assert (Hm : marker i (snd (_xem_refresh (Some i) st))
                 = [mkRefresh i (clock st)]).
    { rewrite xem_refresh_run, xem_refresh_try_fetch. cbv zeta. rewrite Hf.
      simpl. now rewrite store_result_marker. }
    split; [exact Hm|].
    intros now s e Hnow.
    assert (Hle : (now <= inject_Z (Py.int (clock st) + MAX_XEM_AGE_SECS))%Q).
    { destruct Hnow as [H|H]; [exact H|now apply within_86399]. }
    assert (Hfresh : fst (_xem_refresh_needed (Some i)
                            (with_clock now (snd (_xem_refresh (Some i) st))))
                     = false).
    { rewrite xem_refresh_needed_run. simpl.
      unfold marker in *. simpl. rewrite Hm. simpl.
      apply Qle_bool_iff in Hle. now rewrite Hle. }
    split; [exact Hfresh|].
    rewrite find_xem_numbering_fresh, get_indexer_numbering_for_xem_fresh,
      get_xem_numbering_for_season_fresh by exact Hfresh.
    auto.
Qed.

Lemma marker_window_witness :
  fst (_xem_refresh_needed (Some 1) st_stale) = true
  /\ marker 1 (snd (_xem_refresh (Some 1) st_stale)) = [mkRefresh 1 (201 # 2)]
  /\ fst (_xem_refresh_needed (Some 1)
            (with_clock (86500 # 1) (snd (_xem_refresh (Some 1) st_stale))))
     = false.
Proof.
  destruct (marker_window st_stale 1) as [A B].
  split; [apply A; reflexivity|].
  destruct (B two_mappings eq_refl eq_refl) as [C D].
  split; [exact C|].
  apply (D (86500 # 1) 2 3).
  left. vm_compute. discriminate.
Defined.

(** C8 as stated fails in the last second of the window: the marker is
    written at 100.5, and at 86500.25, which is 86399.75 seconds later, the
    show is stale again, because the marker is read as 100. *)
Lemma stale_within_86400 :
  ~ (forall (st : state) (i : Z) (data : json) (now : Q),
        fetch (remote st) i = Fetched data ->
        truthy data = true ->
        (clock st <= now)%Q ->
        (now - clock st <= inject_Z 86400)%Q ->
        fst (_xem_refresh_needed (Some i)
               (with_clock now (snd (_xem_refresh (Some i) st))))
        = false).
Proof.
  intros H.
  assert (A : (clock st_stale <= 346001 # 4)%Q) by (vm_compute; discriminate).
  assert (B : ((346001 # 4) - clock st_stale <= inject_Z 86400)%Q)
    by (vm_compute; discriminate).
  specialize (H st_stale 1 two_mappings (346001 # 4) eq_refl eq_refl A B).
  vm_compute in H. discriminate.
Qed.

(** ** Replacement of the rows of a show *)

Section Lockstep.

Variable i : Z.
Variable t0 : list numbering_row.
Hypothesis t0_other_shows : select (show_is i) t0 = [].

Lemma lockstep_retX {A : Type} (a : A) : lockstep t0 (retX a).
Proof. intros sa sb H. split; [reflexivity|exact H]. Qed.

Lemma lockstep_eval {A : Type} (o : option A) : lockstep t0 (eval o).
Proof.
  intros sa sb H. unfold eval. destruct o; (split; [reflexivity|exact H]).
Qed.

Lemma lockstep_bindX {A B : Type} (m : X A) (f : A -> X B) :
  lockstep t0 m -> (forall a, lockstep t0 (f a)) -> lockstep t0 (bindX m f).
Proof.
  intros Hm Hf sa sb H. unfold bindX.
  destruct (Hm sa sb H) as [Ho Hs].
  destruct (m sa) as [oa sa'], (m sb) as [ob sb']. simpl in Ho, Hs. subst ob.
  destruct oa as [a|]; [now apply Hf|].
  split; [reflexivity|exact Hs].
Qed.

Lemma no_key_in_t0 (s e : Z) : existsb (key_is i s e) t0 = false.
Proof.
  apply existsb_select_nil. unfold select in *.
  clear -t0_other_shows.
  induction t0 as [|r t IH]; simpl in *; [reflexivity|].
  destruct (show_is i r) eqn:E; [discriminate|].
  destruct (key_is i s e r) eqn:K.
  - apply key_is_show in K. congruence.
  - now apply IH.
Qed.

Lemma delete_t0 : delete (show_is i) t0 = t0.
Proof.
  unfold select, delete in *. clear -t0_other_shows.
  induction t0 as [|r t IH]; simpl in *; [reflexivity|].
  destruct (show_is i r); [discriminate|]. simpl. now rewrite IH.
Qed.

Lemma lockstep_insert (r : numbering_row) :
  row_indexer_id r = i -> lockstep t0 (cacheDB_insert r).
Proof.
  intros Hr sa sb H. unfold sim in *. unfold cacheDB_insert, insert.
  rewrite H, existsb_app, Hr, no_key_in_t0. simpl.
  destruct (existsb _ (xem_numbering sb)); simpl.
  - split; [reflexivity|exact H].
  - split; [reflexivity|]. now rewrite app_assoc.
Qed.

Lemma lockstep_delete : lockstep t0 (lift (cacheDB_delete (show_is i))).
Proof.
  intros sa sb H. unfold sim in *. unfold lift, cacheDB_delete; simpl.
  split; [reflexivity|]. now rewrite H, delete_app, delete_t0.
Qed.

Lemma lockstep_insert_args (entry : json) (k : string) :
  lockstep t0 (r <-! eval (insert_args i entry k) ;; cacheDB_insert r).
Proof.
  intros sa sb H. unfold bindX, eval.
  destruct (insert_args i entry k) as [r|] eqn:E.
  - apply lockstep_insert; [|exact H].
    eapply insert_args_indexer_id; eassumption.
  - split; [reflexivity|exact H].
Qed.

Lemma lockstep_insert_entry (entry : json) : lockstep t0 (insert_entry i entry).
Proof.
  unfold insert_entry.
  apply lockstep_bindX; [apply lockstep_eval|]. intros has_scene.
  apply lockstep_bindX.
  - destruct has_scene; [apply lockstep_insert_args|apply lockstep_retX].
  - intros _. apply lockstep_bindX; [apply lockstep_eval|].
    intros has_scene_2.
    destruct has_scene_2; [apply lockstep_insert_args|apply lockstep_retX].
Qed.

Lemma lockstep_insert_entries (entries : list json) :
  lockstep t0 (insert_entries i entries).
Proof.
  induction entries as [|entry rest IH]; simpl.
  - apply lockstep_retX.
  - apply lockstep_bindX; [apply lockstep_insert_entry|]. intros _. exact IH.
Qed.

Lemma lockstep_load_entries (result : json) :
  lockstep t0 (load_entries i result).
Proof.
  unfold load_entries.
  apply lockstep_bindX; [apply lockstep_eval|]. intros data.
  apply lockstep_bindX; [apply lockstep_eval|]. intros entries.
  apply lockstep_insert_entries.
Qed.

End Lockstep.

Lemma select_nil_of_delete_all (p : numbering_row -> bool)
  (t : list numbering_row) :
  delete p t = [] -> select p t = t.
Proof.
  unfold delete, select.
  induction t as [|r t IH]; simpl; [reflexivity|].
  destruct (p r); simpl; [|discriminate].
  intros H. now rewrite IH.
Qed.

(** The rows of a value are rows of the show. *)
Lemma payload_rows_show (i : Z) (result : json) :
  select (show_is i) (payload_rows i result) = payload_rows i result.
Proof.
  apply select_nil_of_delete_all. unfold payload_rows.
  destruct (keeps_load_result i result blank) as (_ & _ & _ & _ & _ & _ & E).
  rewrite E. reflexivity.
Qed.

Lemma load_result_success_run (i : Z) (result indicator : json) (st : state) :
  getitem result "result" = Some indicator ->
  contains "success" indicator = Some true ->
  load_result i result st
  = load_entries i result
      (with_xem_numbering (delete (show_is i) (xem_numbering st)) st).
Proof.
  intros Hi Hs. unfold load_result, bindX, eval, lift, cacheDB_delete.
  now rewrite Hi, Hs.
Qed.

(** When the value says "success", the rows of the other shows stay, in
    their order, and the rows of the show are those of the value. *)
Lemma load_result_success (i : Z) (result indicator : json) (st : state) :
  getitem result "result" = Some indicator ->
  contains "success" indicator = Some true ->
  xem_numbering (snd (load_result i result st))
  = delete (show_is i) (xem_numbering st) ++ payload_rows i result.
Proof.
  intros Hi Hs. unfold payload_rows.
  rewrite !(load_result_success_run i result indicator) by assumption.
  apply (lockstep_load_entries i (delete (show_is i) (xem_numbering st))
           (select_delete _ _) result).
  unfold sim; simpl. now rewrite app_nil_r.
Qed.

Lemma insert_entry_mapping (i : Z) (m : mapping) (st : state) :
  existsb (key_is i (tvdb_season m) (tvdb_episode m)) (xem_numbering st)
  = false ->
  insert_entry i (entry_json m) st
  = (Returned tt, with_xem_numbering (xem_numbering st ++ [row_of i m]) st).
Proof.
  intros H. destruct m as [s e ss se]. simpl in H.
  unfold insert_entry, bindX, eval, retX, ret, cacheDB_insert, insert.
  simpl. now rewrite H.
Qed.

Lemma key_is_row_of (i : Z) (m m' : mapping) :
  tvdb_key m <> tvdb_key m' ->
  key_is i (tvdb_season m') (tvdb_episode m') (row_of i m) = false.
Proof.
  unfold tvdb_key, key_is, row_of; simpl. intros H.
  rewrite Z.eqb_refl; simpl.
  destruct (Z.eqb_spec (tvdb_season m) (tvdb_season m')) as [E1|]; simpl;
    [|reflexivity].
  destruct (Z.eqb_spec (tvdb_episode m) (tvdb_episode m')) as [E2|];
    [|reflexivity].
  exfalso. apply H. now rewrite E1, E2.
Qed.

(** Mappings with distinct tvdb keys, none of them in the table, are all
    inserted, in their order. *)
Lemma insert_entries_mappings (i : Z) (l : list mapping) :
  forall st : state,
    (forall m, In m l ->
               existsb (key_is i (tvdb_season m) (tvdb_episode m))
                       (xem_numbering st) = false) ->
    NoDup (map tvdb_key l) ->
    insert_entries i (map entry_json l) st
    = (Returned tt,
       with_xem_numbering (xem_numbering st ++ map (row_of i) l) st).
Proof.
  induction l as [|m l IH]; intros st Hfree Hnd.
  - simpl. unfold retX, ret. destruct st; simpl. now rewrite app_nil_r.
  - simpl map. cbn [insert_entries]. unfold bindX at 1.
    rewrite insert_entry_mapping by (apply Hfree; now left).
    inversion Hnd as [|k ks Hnotin Hnd']; subst.
    rewrite IH; [| |exact Hnd'].
    + simpl. rewrite <- app_assoc. reflexivity.
    + intros m' Hm'. simpl. rewrite existsb_app, (Hfree m') by now right.
      simpl. rewrite key_is_row_of; [reflexivity|].
      intros E. apply Hnotin. rewrite E. now apply in_map.
Qed.

Lemma payload_rows_mappings (i : Z) (result indicator : json) (l : list mapping) :
  getitem result "result" = Some indicator ->
  contains "success" indicator = Some true ->
  getitem result "data" = Some (JArr (map entry_json l)) ->
  NoDup (map tvdb_key l) ->
  payload_rows i result = map (row_of i) l.
Proof.
  intros Hi Hs Hd Hnd. unfold payload_rows.
  rewrite (load_result_success_run i result indicator) by assumption.
  unfold load_entries, bindX, eval. rewrite Hd. simpl iter. cbv iota beta.
  rewrite insert_entries_mappings; [reflexivity| |exact Hnd].
  intros m _. reflexivity.
Qed.

(** C9 on the code.  thexem answers for show 1 with "success" and two
    entries: the double 2x03 -> 1x15, 1x16 and the mapping 2x04 -> 1x17.
    The refresh deletes the cached row of show 1 and leaves the row of show
    9 alone, stores 2x03 -> 1x15, and ends in the [except] clause at the
    INSERT for "scene_2", which repeats the PRIMARY KEY of the row just
    stored: the second pair of the double and the entry after it, which
    the loop was to store, are not in the cache. *)
Theorem refresh_stops_at_double :
  fetch (remote st_double) 1 = Fetched double_mapping
  /\ getitem double_mapping "result" = Some (JStr "success")
  /\ contains "success" (JStr "success") = Some true
  /\ (exists double next,
        getitem double_mapping "data" = Some (JArr [double; next])
        /\ insert_args 1 double "scene" = Some (mkRow 1 2 3 1 15)
        /\ insert_args 1 double "scene_2" = Some (mkRow 1 2 3 1 16)
        /\ insert_args 1 next "scene" = Some (mkRow 1 2 4 1 17))
  /\ fst (_xem_refresh_try 1 st_double) = Raised
  /\ xem_numbering st_double = [mkRow 1 1 1 1 1; mkRow 9 1 1 1 2]
  /\ xem_numbering (snd (_xem_refresh (Some 1) st_double))
     = [mkRow 9 1 1 1 2; mkRow 1 2 3 1 15]
  /\ ~ In (mkRow 1 2 4 1 17)
         (xem_numbering (snd (_xem_refresh (Some 1) st_double))).
Proof.
  repeat split; try reflexivity.
  - eexists. eexists. repeat split; reflexivity.
  - vm_compute. intros [H|[H|[]]]; discriminate H.
Qed.

(** A double episode: the INSERT for "scene_2" has the key of the INSERT for
    "scene" and fails; the loop ends there, in the [except] clause. *)
Remark double_entry_collides :
  fst (_xem_refresh_try 1 st_double) = Raised
  /\ xem_numbering (snd (_xem_refresh (Some 1) st_double))
     = [mkRow 9 1 1 1 2; mkRow 1 2 3 1 15].
Proof. split; reflexivity. Qed.

(** ** Scene seasons of a season: [get_xem_numbering_for_season] *)

Lemma season_is_season (i s : Z) (r : numbering_row) :
  season_is i s r = true -> row_indexer_id r = i /\ row_season r = s.
Proof.
  unfold season_is. intros H. apply andb_true_iff in H as [A B].
  split; now apply Z.eqb_eq.
Qed.

Lemma fold_setdefault_append (s : Z) (rows : list numbering_row) :
  forall acc : list Z,
    (forall r, In r rows -> row_season r = s) ->
    fold_left
      (fun result row =>
         setdefault_append (row_season row) (row_scene_season row) result)
      rows [(s, acc)]
    = [(s, acc ++ map row_scene_season rows)].
Proof.
  induction rows as [|r rows IH]; intros acc H; simpl.
  - now rewrite app_nil_r.
  - rewrite (H r (or_introl eq_refl)), Z.eqb_refl.
    rewrite IH by (intros r' Hr'; apply H; now right).
    now rewrite <- app_assoc.
Qed.

Lemma xem_refresh_needed_flag (i : Z) (st : state) :
  fst (_xem_refresh_needed (Some i) (with_schema_created true st))
  = fst (_xem_refresh_needed (Some i) st).
Proof. now rewrite !xem_refresh_needed_run. Qed.

Lemma in_index_scan (p : numbering_row -> bool) (t : list numbering_row)
  (r : numbering_row) :
  In r (index_scan p t) <-> In r t /\ p r = true.
Proof.
  unfold index_scan, select. rewrite in_order_by. apply filter_In.
Qed.

(** C10.  With show and season given, the result is a dict with one key,
    the season.  Its value is a list whose elements are exactly the scene
    seasons that some cached row of that season of the show refers to, and
    the list with the season alone when the cache has no row of that
    season.  (The list has one element per row, in the order of the index
    of the PRIMARY KEY, that is of the episodes.)  The cached rows are those
    in the cache when it is read, after the refresh if the show was stale;
    for a fresh show they are those of the state the call started in. *)
Theorem get_xem_numbering_for_season_spec (st : state) (i s : Z) :
  let r := get_xem_numbering_for_season (Some i) (Some s) st in
  let cache := xem_numbering (snd r) in
  (exists l : list Z,
      fst r = [(s, l)]
      /\ ((forall row, In row cache -> season_is i s row = false) -> l = [s])
      /\ ((exists row, In row cache /\ season_is i s row = true) ->
          forall ss : Z,
            In ss l <->
            exists row, In row cache
                        /\ row_indexer_id row = i
                        /\ row_season row = s
                        /\ row_scene_season row = ss))
  /\ fst r = [(s, match index_scan (season_is i s) cache with
                  | [] => [s]
                  | rows => map row_scene_season rows
                  end)]
  /\ (fst (_xem_refresh_needed (Some i) st) = false ->
      cache = xem_numbering st).
Proof.
  cbv zeta.
  unfold get_xem_numbering_for_season, bind.
  rewrite check_for_schema_run.
  destruct (_xem_refresh_needed (Some i) (with_schema_created true st))
    as [needed st2] eqn:N.
  destruct ((if needed then _xem_refresh (Some i) else ret tt) st2)
    as [[] st3] eqn:F.
  unfold cacheDB_select_index.
  set (rows := index_scan (season_is i s) (xem_numbering st3)).
  assert (Hrows : forall r, In r rows -> row_season r = s).
  { intros r Hr. apply in_index_scan in Hr as [_ Hr].
    now apply season_is_season in Hr. }
  assert (Hsnd : snd (match rows with
                      | [] => ret (setdefault_append s s [])
                      | _ :: _ =>
                          ret (fold_left
                                 (fun result row =>
                                    setdefault_append (row_season row)
                                      (row_scene_season row) result)
                                 rows [])
                      end st3) = st3) by (destruct rows; reflexivity).
  rewrite Hsnd. fold rows.
  assert (Hfst : fst (match rows with
                      | [] => ret (setdefault_append s s [])
                      | _ :: _ =>
                          ret (fold_left
                                 (fun result row =>
                                    setdefault_append (row_season row)
                                      (row_scene_season row) result)
                                 rows [])
                      end st3)
                 = [(s, match rows with
                        | [] => [s]
                        | _ :: _ => map row_scene_season rows
                        end)]).
  { destruct rows as [|r rest] eqn:E; [reflexivity|].
    unfold ret. cbn [fst fold_left setdefault_append].
    rewrite (Hrows r (or_introl eq_refl)).
    rewrite fold_setdefault_append
      by (intros r' Hr'; apply Hrows; now right).
    reflexivity. }
  rewrite Hfst.
  split; [|split].
  - eexists. split; [reflexivity|]. split.
    + intros Hnone. destruct rows as [|r rest] eqn:E; [reflexivity|].
      assert (Hr : In r rows) by (rewrite E; now left).
      apply in_index_scan in Hr as [Hin Hp].
      rewrite (Hnone r Hin) in Hp. discriminate.
    + intros (row0 & Hin0 & Hp0) ss.
      destruct rows as [|r rest] eqn:E.
      { assert (Y : In row0 rows) by (apply in_index_scan; now split).
        rewrite E in Y. destruct Y. }
      rewrite <- E. rewrite in_map_iff. split.
      * intros (row & Hss & Hin).
        apply in_index_scan in Hin as [Hin Hp].
        apply season_is_season in Hp as [Hi Hs].
        exists row. auto.
      * intros (row & Hin & Hi & Hs & Hss). exists row.
        split; [exact Hss|]. apply in_index_scan. split; [exact Hin|].
        unfold season_is. now rewrite Hi, Hs, !Z.eqb_refl.
  - destruct rows; reflexivity.
  - intros Hfresh.
    rewrite xem_refresh_needed_run in N. injection N as Hn Hst2.
    rewrite xem_refresh_needed_run in Hfresh. simpl in Hfresh.
    unfold marker in Hn. simpl in Hn. unfold marker in Hfresh.
    rewrite Hfresh in Hn. subst needed. unfold ret in F.
    injection F as <-. subst st2. reflexivity.
Qed.

Lemma get_xem_numbering_for_season_spec_witness :
  fst (get_xem_numbering_for_season (Some 1) (Some 2) st_unordered)
  = [(2, [1; 2])]
  /\ fst (get_xem_numbering_for_season (Some 1) (Some 2) st_split_season)
     = [(2, [1; 1; 2])]
  /\ fst (get_xem_numbering_for_season (Some 1) (Some 7) st_split_season)
     = [(7, [7])]
  /\ xem_numbering
       (snd (get_xem_numbering_for_season (Some 1) (Some 2) st_split_season))
     = xem_numbering st_split_season.
Proof.
  split; [|split; [|split]].
  - apply (get_xem_numbering_for_season_spec st_unordered 1 2).
  - apply (get_xem_numbering_for_season_spec st_split_season 1 2).
  - apply (get_xem_numbering_for_season_spec st_split_season 1 7).
  - apply (get_xem_numbering_for_season_spec st_split_season 1 2).
    reflexivity.
Defined.

(** * Further properties of the module *)

(** ** Calls without an identifier *)

(** X1.  A call with show, season or episode missing touches nothing: the
    state it returns is the state it was given (no table is created, read or
    written, no GET is issued).  The lookups answer with the pair they
    were given, except [find_xem_numbering] and
    [get_indexer_numbering_for_xem], which answer [None]; the dumps of a
    missing show are empty, and a missing show needs no refresh. *)
Theorem missing_identifier_is_inert
  (st : state) (indexer_id season episode sceneSeason sceneEpisode : option Z)
  (fallback_to_xem : bool) :
  indexer_id = None \/ season = None \/ episode = None ->
  get_scene_numbering indexer_id season episode fallback_to_xem st
  = ((season, episode), st)
  /\ find_scene_numbering indexer_id season episode st
     = (Some (season, episode), st)
  /\ get_indexer_numbering indexer_id season episode fallback_to_xem st
     = (Some (season, episode), st)
  /\ set_scene_numbering indexer_id season episode sceneSeason sceneEpisode st
     = (Returned tt, st)
  /\ find_xem_numbering indexer_id season episode st = (None, st)
  /\ get_indexer_numbering_for_xem indexer_id season episode st = (None, st)
  /\ (indexer_id = None \/ season = None ->
      get_xem_numbering_for_season indexer_id season st = ([], st))
  /\ (indexer_id = None ->
      _xem_refresh_needed indexer_id st = (false, st)
      /\ _xem_refresh indexer_id st = (tt, st)
      /\ get_scene_numbering_for_show indexer_id st = ([], st)
      /\ get_xem_numbering_for_show indexer_id st = ([], st)).
Proof.
  intros H.
  assert (G : match indexer_id, season, episode with
              | Some _, Some _, Some _ => False
              | _, _, _ => True
              end).
  { destruct H as [->|[->| ->]]; [exact I| |];
      destruct indexer_id; try exact I; destruct season; exact I. }
  destruct indexer_id, season, episode; try (now destruct G);
    repeat split; try reflexivity;
    try (intros [E|E]; try discriminate E; reflexivity);
    congruence.
Qed.

Lemma missing_identifier_is_inert_witness :
  get_scene_numbering (Some 1) None (Some 3) true st_stale
  = ((None, Some 3), st_stale)
  /\ find_xem_numbering (Some 1) None (Some 3) st_stale = (None, st_stale).
Proof.
  destruct (missing_identifier_is_inert st_stale (Some 1) None (Some 3)
              None None true)
    as (A & _ & _ & _ & B & _).
  - right. left. reflexivity.
  - split; [exact A|exact B].
Defined.

(** ** The override store *)

Lemma key_is_key3 (i s e : Z) (r : numbering_row) :
  key_is i s e r = true <-> key3 r = (i, s, e).
Proof.
  unfold key_is, key3. rewrite !andb_true_iff, !Z.eqb_eq. split.
  - intros [[-> ->] ->]. reflexivity.
  - intros H. injection H as -> -> ->. auto.
Qed.

Lemma unique_keys_delete (p : numbering_row -> bool) (t : list numbering_row) :
  unique_keys t -> unique_keys (delete p t).
Proof.
  unfold unique_keys, delete.
  induction t as [|r t IH]; simpl; intros H; [constructor|].
  inversion H as [|k ks Hnotin Hnd]; subst.
  destruct (p r); simpl; [now apply IH|].
  constructor; [|now apply IH].
  intros Hin. apply Hnotin.
  apply in_map_iff in Hin as (r' & E & Hr').
  apply filter_In in Hr' as [Hr' _].
  apply in_map_iff. now exists r'.
Qed.

Lemma unique_keys_insert (r : numbering_row) (t t' : list numbering_row) :
  unique_keys t -> insert r t = Some t' -> unique_keys t'.
Proof.
  unfold unique_keys, insert. intros H E.
  destruct (existsb _ t) eqn:X; [discriminate|]. injection E as <-.
  rewrite map_app. apply NoDup_app; [exact H|repeat constructor; intros []|].
  intros k Hk [<-|[]].
  apply in_map_iff in Hk as (r' & E & Hr').
  assert (Y : existsb (key_is (row_indexer_id r) (row_season r) (row_episode r))
                t = true).
  { apply existsb_exists. exists r'. split; [exact Hr'|].
    now apply key_is_key3. }
  congruence.
Qed.

(** Two rows of a table with a primary key that have the same key are the
    same row. *)
Lemma unique_keys_same_row (t : list numbering_row) (r r' : numbering_row) :
  unique_keys t -> In r t -> In r' t -> key3 r = key3 r' -> r = r'.
Proof.
  unfold unique_keys.
  induction t as [|x t IH]; simpl; intros H Hr Hr' E; [now destruct Hr|].
  inversion H as [|k ks Hnotin Hnd]; subst.
  destruct Hr as [->|Hr], Hr' as [->|Hr'].
  - reflexivity.
  - exfalso. apply Hnotin. rewrite E. now apply in_map.
  - exfalso. apply Hnotin. rewrite <- E. now apply in_map.
  - now apply IH.
Qed.



Lemma delete_delete_app (p : numbering_row -> bool) (t : list numbering_row)
  (r : numbering_row) :
  p r = true -> delete p (delete p t ++ [r]) = delete p t.
Proof.
  intros H. rewrite delete_app, delete_idem.
  unfold delete at 2. simpl. rewrite H. simpl. apply app_nil_r.
Qed.

(** X3.  The last [set_scene_numbering] of a key wins: two calls for the
    same key, the second with any scene arguments (a pair, or [None] to
    clear), end in the state that the second call alone ends in. *)
Theorem set_scene_numbering_last_wins
  (st : state) (i s e : Z) (first1 first2 second1 second2 : option Z) :
  snd (set_scene_numbering (Some i) (Some s) (Some e) second1 second2
         (snd (set_scene_numbering (Some i) (Some s) (Some e)
                 first1 first2 st)))
  = snd (set_scene_numbering (Some i) (Some s) (Some e) second1 second2 st).
Proof.
  rewrite !set_scene_numbering_run. simpl.
  unfold with_scene_numbering, with_schema_created. simpl. f_equal.
  unfold overrides_after_set.
  assert (D : delete (key_is i s e)
                (match first1, first2 with
                 | Some ss, Some se =>
                     delete (key_is i s e) (scene_numbering st)
                     ++ [mkRow i s e ss se]
                 | _, _ => delete (key_is i s e) (scene_numbering st)
                 end)
              = delete (key_is i s e) (scene_numbering st)).
  { destruct first1 as [a|], first2 as [b|]; try apply delete_idem.
    apply delete_delete_app, key_is_refl. }
  rewrite D. reflexivity.
Qed.

Lemma select_delete_other (p q : numbering_row -> bool)
  (t : list numbering_row) :
  (forall r, p r = true -> q r = false) ->
  select p (delete q t) = select p t.
Proof.
  intros H. unfold select, delete.
  induction t as [|r t IH]; simpl; [reflexivity|].
  destruct (q r) eqn:Q; simpl.
  - destruct (p r) eqn:P; [|exact IH]. rewrite (H r P) in Q. discriminate.
  - now rewrite IH.
Qed.

Lemma key_is_other (i s e i' s' e' : Z) (r : numbering_row) :
  (i, s, e) <> (i', s', e') ->
  key_is i' s' e' r = true -> key_is i s e r = false.
Proof.
  intros N H. apply key_is_key3 in H.
  destruct (key_is i s e r) eqn:K; [|reflexivity].
  apply key_is_key3 in K. congruence.
Qed.

(** X4.  [set_scene_numbering] of one key leaves the lookups of every other
    key as they were: [get_scene_numbering] of a different (show, season,
    episode) returns after the call what it returned before. *)
Theorem set_scene_numbering_other_key
  (st : state) (i s e i' s' e' : Z) (sceneSeason sceneEpisode : option Z)
  (fallback_to_xem : bool) :
  (i, s, e) <> (i', s', e') ->
  fst (get_scene_numbering (Some i') (Some s') (Some e') fallback_to_xem
         (snd (set_scene_numbering (Some i) (Some s) (Some e)
                 sceneSeason sceneEpisode st)))
  = fst (get_scene_numbering (Some i') (Some s') (Some e') fallback_to_xem st).
Proof.
  intros N. rewrite set_scene_numbering_run, !get_scene_numbering_run. simpl.
  assert (E : select (key_is i' s' e')
                (overrides_after_set i s e sceneSeason sceneEpisode
                   (scene_numbering st))
              = select (key_is i' s' e') (scene_numbering st)).
  { assert (D : select (key_is i' s' e')
                  (delete (key_is i s e) (scene_numbering st))
                = select (key_is i' s' e') (scene_numbering st)).
    { apply select_delete_other. intros r. now apply key_is_other. }
    unfold overrides_after_set.
    destruct sceneSeason as [ss|], sceneEpisode as [se|]; try exact D.
    rewrite select_app, D. unfold select at 2. simpl.
    rewrite (key_is_other i' s' e' i s e); [apply app_nil_r| |apply key_is_refl].
    congruence. }
  now rewrite E.
Qed.

Lemma set_scene_numbering_other_key_witness :
  fst (get_scene_numbering (Some 1) (Some 2) (Some 1) true
         (snd (set_scene_numbering (Some 1) (Some 1) (Some 1) (Some 4) (Some 4)
                 st_two_overrides)))
  = fst (get_scene_numbering (Some 1) (Some 2) (Some 1) true st_two_overrides).
Proof.
  apply (set_scene_numbering_other_key st_two_overrides 1 1 1 1 2 1).
  discriminate.
Defined.

(** X5.  Clearing an override: after [set_scene_numbering] with one of the
    scene values, or both, left [None], [get_scene_numbering] of the key
    returns the key's own (season, episode), whatever override the key had
    and whatever the cache holds for it. *)
Theorem cleared_override_is_identity
  (st : state) (i s e : Z) (sceneSeason sceneEpisode : option Z)
  (fallback_to_xem : bool) :
  sceneSeason = None \/ sceneEpisode = None ->
  fst (get_scene_numbering (Some i) (Some s) (Some e) fallback_to_xem
         (snd (set_scene_numbering (Some i) (Some s) (Some e)
                 sceneSeason sceneEpisode st)))
  = (Some s, Some e).
Proof.
  intros H. rewrite set_scene_numbering_run, get_scene_numbering_run. simpl.
  rewrite select_key_after_set.
  destruct H as [-> | ->]; [reflexivity|].
  now destruct sceneSeason.
Qed.

Lemma cleared_override_is_identity_witness :
  fst (get_scene_numbering (Some 1) (Some 2) (Some 1) true
         (snd (set_scene_numbering (Some 1) (Some 2) (Some 1) None None
                 st_two_overrides)))
  = (Some 2, Some 1).
Proof.
  apply (cleared_override_is_identity st_two_overrides 1 2 1 None None true).
  now left.
Defined.

(** X6.  [get_scene_numbering] reads the override store and nothing else:
    on every input it issues no GET and leaves the three tables, the clock
    and the remote service as they were, also for a show whose cache is
    stale and with [fallback_to_xem] set. *)
Theorem get_scene_numbering_reads_overrides_only
  (st : state) (indexer_id season episode : option Z) (fallback_to_xem : bool) :
  let st' := snd (get_scene_numbering indexer_id season episode
                                      fallback_to_xem st) in
  requests st' = requests st
  /\ same_tables st st'
  /\ clock st' = clock st
  /\ remote st' = remote st.
Proof.
  cbv zeta.
  destruct indexer_id as [i|], season as [s|], episode as [e|];
    try (unfold same_tables; simpl; auto 10).
  rewrite get_scene_numbering_run. unfold same_tables. simpl. auto 10.
Qed.

(** X7.  The round trip of C7 in a store with other rows: when no other
    override of the show has the scene pair (ss, se), setting
    (s, e) -> (ss, se) and looking (s, e) up forwards, then the result
    backwards, gives (s, e). *)
Theorem get_indexer_numbering_inverse_among_others
  (st : state) (i s e ss se : Z) (fb1 fb2 : bool) :
  select (scene_is i ss se) (delete (key_is i s e) (scene_numbering st)) = [] ->
  let st1 := snd (set_scene_numbering (Some i) (Some s) (Some e)
                                      (Some ss) (Some se) st) in
  let scene := get_scene_numbering (Some i) (Some s) (Some e) fb1 st1 in
  fst (get_indexer_numbering (Some i) (fst (fst scene)) (snd (fst scene))
         fb2 (snd scene))
  = Some (Some s, Some e).
Proof.
  intros Hothers. cbv zeta.
  rewrite set_scene_numbering_run, get_scene_numbering_run. simpl.
  rewrite select_key_after_set. simpl.
  rewrite (get_indexer_numbering_found i ss se fb2 (Some s, Some e));
    [reflexivity|].
  simpl. rewrite (index_scan_one _ _ (mkRow i s e ss se)); [reflexivity|].
  unfold overrides_after_set. rewrite select_app, Hothers.
  unfold select; simpl. now rewrite scene_is_refl.
Qed.

Lemma get_indexer_numbering_inverse_among_others_witness :
  fst (get_indexer_numbering (Some 1) (Some 5) (Some 7) true
         (snd (get_scene_numbering (Some 1) (Some 3) (Some 1) true
                 (snd (set_scene_numbering (Some 1) (Some 3) (Some 1)
                         (Some 5) (Some 7) st_two_overrides)))))
  = Some (Some 3, Some 1).
Proof.
  apply (get_indexer_numbering_inverse_among_others st_two_overrides
           1 3 1 5 7 true true).
  reflexivity.
Defined.

Lemma select_none (p : numbering_row -> bool) (t : list numbering_row) :
  (forall r, In r t -> p r = false) -> select p t = [].
Proof.
  unfold select. induction t as [|x t IH]; intros H; simpl; [reflexivity|].
  rewrite (H x (or_introl eq_refl)). apply IH.
  intros r Hr. apply H. now right.
Qed.

(** X8.  The order of the reverse lookup.  When the show has overrides with
    the scene pair, [get_indexer_numbering] answers with the (season,
    episode) of one of them, the least in (season, episode) order, without
    reading the cache or the clock.  When it has none: without
    [fallback_to_xem] the answer is the pair that was given; with it and a
    show that is fresh, the answer is the least (season, episode) among the
    cached rows of the show with the scene pair, and the pair that was given
    when there is no such row.  In all these cases no GET is issued and no
    table changes. *)
Theorem get_indexer_numbering_order (st : state) (i ss se : Z) :
  (forall fb : bool,
      (exists row, In row (scene_numbering st)
                   /\ scene_is i ss se row = true) ->
      exists r,
        In r (scene_numbering st)
        /\ scene_is i ss se r = true
        /\ (forall r', In r' (scene_numbering st) ->
                       scene_is i ss se r' = true -> row_le r r' = true)
        /\ get_indexer_numbering (Some i) (Some ss) (Some se) fb st
           = (Some (Some (row_season r), Some (row_episode r)),
              with_schema_created true st))
  /\ ((forall row, In row (scene_numbering st) ->
                   scene_is i ss se row = false) ->
      get_indexer_numbering (Some i) (Some ss) (Some se) false st
      = (Some (Some ss, Some se), with_schema_created true st)
      /\ (fst (_xem_refresh_needed (Some i) st) = false ->
          ((forall row, In row (xem_numbering st) ->
                        scene_is i ss se row = false) ->
           get_indexer_numbering (Some i) (Some ss) (Some se) true st
           = (Some (Some ss, Some se), with_schema_created true st))
          /\ ((exists row, In row (xem_numbering st)
                           /\ scene_is i ss se row = true) ->
              exists r,
                In r (xem_numbering st)
                /\ scene_is i ss se r = true
                /\ (forall r', In r' (xem_numbering st) ->
                               scene_is i ss se r' = true ->
                               row_le r r' = true)
                /\ get_indexer_numbering (Some i) (Some ss) (Some se) true st
                   = (Some (Some (row_season r), Some (row_episode r)),
                      with_schema_created true st)))).
Proof.
  split.
  - intros fb (row & Hin & Hp).
    destruct (index_scan_some _ _ row Hin Hp) as (r & rest & E).
    destruct (index_scan_head _ _ _ _ E) as (Hr & Hpr & Hmin).
    exists r. repeat split; try assumption.
    apply get_indexer_numbering_found. now rewrite E.
  - intros Hnone.
    assert (E : index_scan (scene_is i ss se) (scene_numbering st) = [])
      by (apply index_scan_nil, select_none, Hnone).
    split.
    + unfold get_indexer_numbering, bind, myDB_select_index, ret.
      rewrite check_for_schema_run. simpl. now rewrite E.
    + intros Hfresh.
      assert (R : get_indexer_numbering (Some i) (Some ss) (Some se) true st
                  = (match index_scan (scene_is i ss se) (xem_numbering st) with
                     | r :: _ => Some (Some (row_season r), Some (row_episode r))
                     | [] => Some (Some ss, Some se)
                     end,
                     with_schema_created true st)).
      { unfold get_indexer_numbering, bind, myDB_select_index, ret.
        rewrite check_for_schema_run. simpl. rewrite E. simpl.
        unfold get_indexer_numbering_for_xem, bind.
        rewrite xem_refresh_needed_run in Hfresh. simpl in Hfresh.
        rewrite check_for_schema_run, xem_refresh_needed_run.
        unfold marker in *. simpl. rewrite Hfresh.
        unfold cacheDB_select_index, ret. simpl.
        destruct st as [fl ov xn xr ck rm rq]; simpl.
        now destruct (index_scan (scene_is i ss se) xn). }
      split.
      * intros Hx. rewrite R.
        now rewrite (index_scan_nil _ _ (select_none _ _ Hx)).
      * intros (row & Hin & Hp).
        destruct (index_scan_some _ _ row Hin Hp) as (r & rest & Ex).
        destruct (index_scan_head _ _ _ _ Ex) as (Hr & Hpr & Hmin).
        exists r. repeat split; try assumption.
        rewrite R. now rewrite Ex.
Qed.

Lemma get_indexer_numbering_order_witness :
  get_indexer_numbering (Some 1) (Some 2) (Some 2) true st_same_scene
  = (Some (Some 1, Some 1), with_schema_created true st_same_scene)
  /\ get_indexer_numbering (Some 1) (Some 4) (Some 4) true st_same_scene
     = (Some (Some 3, Some 1), with_schema_created true st_same_scene)
  /\ get_indexer_numbering (Some 1) (Some 4) (Some 4) false st_same_scene
     = (Some (Some 4, Some 4), with_schema_created true st_same_scene).
Proof.
  destruct (get_indexer_numbering_order st_same_scene 1 2 2) as (A & _).
  destruct (get_indexer_numbering_order st_same_scene 1 4 4) as (_ & B).
  split; [|split].
  - destruct (A true) as (r & Hr & _ & Hmin & E).
    + exists (mkRow 1 1 1 2 2). split; [right; now left|reflexivity].
    + rewrite E.
      assert (L : row_le r (mkRow 1 1 1 2 2) = true)
        by (apply Hmin; [right; now left|reflexivity]).
      destruct Hr as [<-|[<-|[]]]; [discriminate L|reflexivity].
  - destruct B as (_ & C).
    + intros row [<-|[<-|[]]]; reflexivity.
    + destruct (C eq_refl) as (_ & D).
      destruct D as (r & Hr & _ & _ & E).
      * exists (mkRow 1 3 1 4 4). split; [now left|reflexivity].
      * rewrite E. destruct Hr as [<-|[]]. reflexivity.
  - apply B. intros row [<-|[<-|[]]]; reflexivity.
Defined.

Lemma first_of_select (p : numbering_row -> bool) (t : list numbering_row)
  (r : numbering_row) :
  In r t -> p r = true ->
  (forall r', In r' t -> p r' = true -> r' = r) ->
  exists rest, select p t = r :: rest.
Proof.
  unfold select.
  induction t as [|x t IH]; simpl; intros Hin Hp Hall; [now destruct Hin|].
  destruct (p x) eqn:Px.
  - rewrite (Hall x (or_introl eq_refl) Px). eauto.
  - destruct Hin as [->|Hin]; [congruence|].
    apply IH; [exact Hin|exact Hp|]. intros r' Hr'. apply Hall. now right.
Qed.

(** X9.  The cache, read forwards and backwards.  For a show that is fresh,
    when the cache has a primary key, holds the row
    (i, s, e) -> (ss, se) and no other row of the show with that scene
    pair, [find_xem_numbering] of (s, e) gives (ss, se) and
    [get_indexer_numbering_for_xem] of (ss, se) gives back (s, e). *)
Theorem xem_numbering_round_trip (st : state) (i s e ss se : Z) :
  fst (_xem_refresh_needed (Some i) st) = false ->
  unique_keys (xem_numbering st) ->
  In (mkRow i s e ss se) (xem_numbering st) ->
  (forall r, In r (xem_numbering st) -> scene_is i ss se r = true ->
             r = mkRow i s e ss se) ->
  let found := find_xem_numbering (Some i) (Some s) (Some e) st in
  fst found = Some (Some ss, Some se)
  /\ fst (get_indexer_numbering_for_xem (Some i) (Some ss) (Some se)
            (snd found))
     = Some (Some s, Some e).
Proof.
  intros Hfresh Hpk Hin Hscene. cbv zeta.
  rewrite find_xem_numbering_fresh by exact Hfresh. simpl.
  destruct (first_of_select (key_is i s e) (xem_numbering st)
              (mkRow i s e ss se) Hin (key_is_refl i s e ss se))
    as [rest1 E1].
  { intros r' Hr' K. apply key_is_key3 in K.
    eapply unique_keys_same_row; eauto. }
  destruct (index_scan_some (scene_is i ss se) (xem_numbering st)
              (mkRow i s e ss se) Hin (scene_is_refl i s e ss se))
    as (r0 & rest2 & E2).
  destruct (index_scan_head _ _ _ _ E2) as (Hr0 & Hp0 & _).
  rewrite (Hscene r0 Hr0 Hp0) in E2.
  rewrite E1. split; [reflexivity|].
  unfold get_indexer_numbering_for_xem, bind.
  rewrite check_for_schema_run, xem_refresh_needed_run.
  rewrite xem_refresh_needed_run in Hfresh. simpl in Hfresh.
  unfold marker in *. simpl. rewrite Hfresh.
  unfold cacheDB_select_index, ret. simpl.
  change (xem_numbering (with_schema_created true st))
    with (xem_numbering st).
  now rewrite E2.
Qed.

Lemma xem_numbering_round_trip_witness :
  fst (find_xem_numbering (Some 1) (Some 2) (Some 3) st_cached)
  = Some (Some 1, Some 15)
  /\ fst (get_indexer_numbering_for_xem (Some 1) (Some 1) (Some 15)
            (snd (find_xem_numbering (Some 1) (Some 2) (Some 3) st_cached)))
     = Some (Some 2, Some 3).
Proof.
  apply (xem_numbering_round_trip st_cached 1 2 3 1 15).
  - reflexivity.
  - unfold unique_keys, st_cached. simpl.
    repeat (constructor; [simpl; intuition discriminate|]). constructor.
  - left. reflexivity.
  - intros r [<-|[]] _. reflexivity.
Defined.

(** ** The refresh, whatever the remote service answers *)

(** X10.  Whatever the two endpoints answer or raise, [_xem_refresh]
    returns, issues one GET or two (the second to the mirror, both for the
    show), and leaves alone the override store, the clock, the cached rows
    of every other show and the marker of every other show. *)
Theorem xem_refresh_touches_one_show (st : state) (i : Z) :
  let st' := snd (_xem_refresh (Some i) st) in
  (exists gets,
      requests st' = requests st ++ gets
      /\ (gets = [(TheXem, i)] \/ gets = [(TheXem, i); (TVTumbler, i)]))
  /\ scene_numbering st' = scene_numbering st
  /\ clock st' = clock st
  /\ (forall j, j <> i ->
        select (show_is j) (xem_numbering st')
        = select (show_is j) (xem_numbering st))
  /\ (forall j, j <> i -> marker j st' = marker j st).
Proof.
  cbv zeta.
  destruct (xem_refresh_frame i st) as (Hreq & Hov & Hck & _ & Hrows & Hmark).
  split; [|split; [exact Hov|split; [exact Hck|split]]].
  - exists (fetch_log (remote st) i). split; [exact Hreq|].
    unfold fetch_log. destruct (remote st TheXem i) as [|data]; [now left|].
    destruct (is_none_or_empty data); [now right|now left].
  - intros j Hj.
    assert (E : forall t, select (show_is j) (delete (show_is i) t)
                          = select (show_is j) t).
    { intros t. apply select_delete_other. intros r. unfold show_is.
      rewrite Z.eqb_eq. intros ->. now apply Z.eqb_neq. }
    rewrite <- (E (xem_numbering (snd (_xem_refresh (Some i) st)))), Hrows.
    apply E.
  - intros j Hj. unfold marker.
    assert (E : forall t,
               filter (fun r => refresh_indexer_id r =? j)
                 (filter (fun r => negb (refresh_indexer_id r =? i)) t)
               = filter (fun r => refresh_indexer_id r =? j) t).
    { induction t as [|r t IH]; simpl; [reflexivity|].
      destruct (Z.eqb_spec (refresh_indexer_id r) i) as [Ei|Ei]; simpl.
      - destruct (Z.eqb_spec (refresh_indexer_id r) j); [congruence|exact IH].
      - now rewrite IH. }
    rewrite <- (E (xem_refresh (snd (_xem_refresh (Some i) st)))), Hmark.
    apply E.
Qed.













(** ** Lookups in the cache of a stale show *)

Lemma find_xem_numbering_stale (i s e : Z) (st : state) :
  fst (_xem_refresh_needed (Some i) st) = true ->
  find_xem_numbering (Some i) (Some s) (Some e) st
  = let st' := snd (_xem_refresh (Some i) (with_schema_created true st)) in
    (first_scene (select (key_is i s e) (xem_numbering st')), st').
Proof.
  intros H. unfold find_xem_numbering, bind.
  rewrite xem_refresh_needed_run in H. simpl in H.
  rewrite check_for_schema_run, xem_refresh_needed_run.
  unfold marker in *. simpl. rewrite H.
  change (with_schema_created true (with_schema_created true st))
    with (with_schema_created true st).
  destruct (_xem_refresh (Some i) (with_schema_created true st)) as [[] st'].
  reflexivity.
Qed.

(** The cache after a refresh that obtains well-formed mappings. *)
Lemma xem_refresh_mappings (st : state) (i : Z) (result indicator : json)
  (l : list mapping) :
  fetch (remote st) i = Fetched result ->
  getitem result "result" = Some indicator ->
  contains "success" indicator = Some true ->
  getitem result "data" = Some (JArr (map entry_json l)) ->
  NoDup (map tvdb_key l) ->
  xem_numbering (snd (_xem_refresh (Some i) st))
  = delete (show_is i) (xem_numbering st) ++ map (row_of i) l.
Proof.
  intros Hf Hi Hs Hd Hnd.
  assert (Ht : truthy result = true).
  { destruct result; try discriminate Hi. now destruct fields. }
  rewrite xem_refresh_run, xem_refresh_try_fetch. cbv zeta. rewrite Hf.
  cbn [snd]. rewrite store_result_run by exact Ht.
  rewrite (load_result_success i result indicator) by assumption.
  rewrite (payload_rows_mappings i result indicator l) by assumption.
  reflexivity.
Qed.

Lemma select_key_delete_show (i s e : Z) (t : list numbering_row) :
  select (key_is i s e) (delete (show_is i) t) = [].
Proof.
  apply select_nil_existsb.
  apply (no_key_in_t0 i (delete (show_is i) t) (select_delete _ _)).
Qed.

Lemma select_key_mappings_none (i s e : Z) (l : list mapping) :
  ~ In (s, e) (map tvdb_key l) ->
  select (key_is i s e) (map (row_of i) l) = [].
Proof.
  unfold select.
  induction l as [|m l IH]; simpl; intros H; [reflexivity|].
  destruct (key_is i s e (row_of i m)) eqn:K.
  - exfalso. apply H. left. apply key_is_key3 in K.
    unfold key3, row_of, tvdb_key in *. simpl in K. congruence.
  - apply IH. intros Hin. apply H. now right.
Qed.

Lemma select_key_mappings (i : Z) (l : list mapping) (m : mapping) :
  NoDup (map tvdb_key l) -> In m l ->
  select (key_is i (tvdb_season m) (tvdb_episode m)) (map (row_of i) l)
  = [row_of i m].
Proof.
  induction l as [|x l IH]; simpl; intros Hnd Hin; [now destruct Hin|].
  inversion Hnd as [|k ks Hnotin Hnd']; subst.
  unfold select. simpl. fold (select (key_is i (tvdb_season m) (tvdb_episode m))
                                (map (row_of i) l)).
  destruct Hin as [->|Hin].
  - unfold row_of at 1. rewrite key_is_refl.
    now rewrite select_key_mappings_none.
  - rewrite key_is_row_of.
    + now apply IH.
    + intros E. apply Hnotin. rewrite E. now apply in_map.
Qed.

(** X13.  A lookup for a stale show refreshes first and answers from the
    new rows.  When the show is stale and the endpoints give a value whose
    "result" contains "success" and whose "data" is a list of mappings with
    distinct tvdb keys, [find_xem_numbering] of the key of one of these
    mappings returns its scene pair, and of any other key of the show
    returns [None], whatever the cache held for the show before. *)
Theorem find_xem_numbering_after_refresh
  (st : state) (i : Z) (result indicator : json) (l : list mapping) :
  fst (_xem_refresh_needed (Some i) st) = true ->
  fetch (remote st) i = Fetched result ->
  getitem result "result" = Some indicator ->
  contains "success" indicator = Some true ->
  getitem result "data" = Some (JArr (map entry_json l)) ->
  NoDup (map tvdb_key l) ->
  (forall m, In m l ->
      fst (find_xem_numbering (Some i) (Some (tvdb_season m))
                              (Some (tvdb_episode m)) st)
      = Some (Some (scene_season m), Some (scene_episode m)))
  /\ (forall s e, ~ In (s, e) (map tvdb_key l) ->
        fst (find_xem_numbering (Some i) (Some s) (Some e) st) = None).
Proof.
  intros Hstale Hf Hi Hs Hd Hnd.
  assert (E : xem_numbering
                (snd (_xem_refresh (Some i) (with_schema_created true st)))
              = delete (show_is i) (xem_numbering st) ++ map (row_of i) l).
  { now apply (xem_refresh_mappings (with_schema_created true st) i
                 result indicator l). }
  split.
  - intros m Hm. rewrite find_xem_numbering_stale by exact Hstale.
    cbv zeta. cbn [fst]. rewrite E, select_app, select_key_delete_show.
    simpl. now rewrite select_key_mappings.
  - intros s e Hno. rewrite find_xem_numbering_stale by exact Hstale.
    cbv zeta. cbn [fst]. rewrite E, select_app, select_key_delete_show.
    simpl. now rewrite select_key_mappings_none.
Qed.

Lemma find_xem_numbering_after_refresh_witness :
  fst (find_xem_numbering (Some 1) (Some 2) (Some 4) st_stale)
  = Some (Some 1, Some 16)
  /\ fst (find_xem_numbering (Some 1) (Some 1) (Some 1) st_stale) = None.
Proof.
  destruct (find_xem_numbering_after_refresh st_stale 1 two_mappings
              (JStr "success") [mkMapping 2 3 1 15; mkMapping 2 4 1 16])
    as [A B]; try reflexivity.
  - repeat (constructor; [simpl; intuition discriminate|]). constructor.
  - split.
    + apply (A (mkMapping 2 4 1 16)). right. left. reflexivity.
    + apply B. simpl. intuition discriminate.
Defined.

(** X14.  A lookup for a stale show whose refresh stores nothing (a request
    raises, both answers are [None] or [''], or the answer is empty in
    Python's sense, such as [{}] or [[]]) is answered from the rows the
    cache already held; the tables are as before and the show is still
    stale. *)
Theorem find_xem_numbering_serves_old_rows (st : state) (i s e : Z) :
  fst (_xem_refresh_needed (Some i) st) = true ->
  (forall data, fetch (remote st) i = Fetched data -> truthy data = false) ->
  let found := find_xem_numbering (Some i) (Some s) (Some e) st in
  fst found = first_scene (select (key_is i s e) (xem_numbering st))
  /\ same_tables st (snd found)
  /\ fst (_xem_refresh_needed (Some i) (snd found)) = true.
Proof.
  intros Hstale Hnone. cbv zeta.
  rewrite find_xem_numbering_stale by exact Hstale. cbv zeta. cbn [fst snd].
  assert (E : snd (_xem_refresh (Some i) (with_schema_created true st))
              = with_requests (requests st ++ fetch_log (remote st) i)
                              (with_schema_created true st)).
  { rewrite xem_refresh_run, xem_refresh_try_fetch. cbv zeta. cbn [snd].
    change (remote (with_schema_created true st)) with (remote st).
    destruct (fetch (remote st) i) as [| |data] eqn:F; try reflexivity.
    now rewrite store_result_falsy by (now apply Hnone). }
  rewrite E. simpl. split; [reflexivity|]. split; [repeat split|].
  rewrite xem_refresh_needed_run in *. simpl in *. exact Hstale.
Qed.

Lemma find_xem_numbering_serves_old_rows_witness :
  fst (find_xem_numbering (Some 1) (Some 2) (Some 3) st_stale_offline)
  = Some (Some 1, Some 15)
  /\ same_tables st_stale_offline
       (snd (find_xem_numbering (Some 1) (Some 2) (Some 3) st_stale_offline))
  /\ fst (_xem_refresh_needed (Some 1)
            (snd (find_xem_numbering (Some 1) (Some 2) (Some 3)
                    st_stale_offline)))
     = true.
Proof.
  apply (find_xem_numbering_serves_old_rows st_stale_offline 1 2 3).
  - reflexivity.
  - intros data H. discriminate H.
Defined.

(** X15.  A reported failure.  When the value obtained has a "result" that
    does not contain "success", the cached rows of every show stay as they
    were and the marker of the show is written, so that the show is fresh
    right away and the next lookup does not ask again; this holds with and
    without a "message" in the value. *)
Theorem reported_failure_keeps_rows
  (st : state) (i : Z) (result indicator : json) :
  fetch (remote st) i = Fetched result ->
  getitem result "result" = Some indicator ->
  contains "success" indicator = Some false ->
  let st' := snd (_xem_refresh (Some i) st) in
  xem_numbering st' = xem_numbering st
  /\ marker i st' = [mkRefresh i (clock st)]
  /\ fst (_xem_refresh_needed (Some i) st') = false.
Proof.
  intros Hf Hi Hs. cbv zeta.
  assert (Ht : truthy result = true).
  { destruct result; try discriminate Hi. now destruct fields. }
  assert (Hm : marker i (snd (_xem_refresh (Some i) st))
               = [mkRefresh i (clock st)]).
  { rewrite xem_refresh_run, xem_refresh_try_fetch. cbv zeta. rewrite Hf.
    cbn [snd]. now rewrite store_result_marker. }
  split; [|split; [exact Hm|]].
  - rewrite xem_refresh_run, xem_refresh_try_fetch. cbv zeta. rewrite Hf.
    cbn [snd]. rewrite store_result_run by exact Ht.
    unfold load_result, bindX, eval, retX, ret. rewrite Hi, Hs.
    now destruct (getitem result "message").
  - rewrite xem_refresh_needed_run. cbn [fst]. rewrite Hm. simpl.
    destruct (xem_refresh_frame i st) as (_ & _ & Hck & _). cbv zeta in Hck.
    rewrite Hck.
    assert (L : (clock st
                 <= inject_Z (Py.int (clock st) + MAX_XEM_AGE_SECS))%Q).
    { apply within_86399.
      rewrite <- (Qplus_0_r (clock st)) at 1.
      apply Qplus_le_r. discriminate. }
    apply Qle_bool_iff in L. now rewrite L.
Qed.

Lemma reported_failure_keeps_rows_witness :
  xem_numbering (snd (_xem_refresh (Some 1) st_failure))
  = xem_numbering st_failure
  /\ marker 1 (snd (_xem_refresh (Some 1) st_failure))
     = [mkRefresh 1 (1000 # 1)]
  /\ fst (_xem_refresh_needed (Some 1) (snd (_xem_refresh (Some 1) st_failure)))
     = false.
Proof.
  apply (reported_failure_keeps_rows st_failure 1
           (JObj [("result", JStr "failure");
                  ("message", JStr "no show with the id")])
           (JStr "failure")); reflexivity.
Defined.

(** ** Answers that the loop of the refresh does not survive, and answers it
       takes for a success *)

Lemma insert_entries_app (i : Z) (a b : list json) (st : state) :
  insert_entries i (a ++ b) st
  = match insert_entries i a st with
    | (Returned _, st') => insert_entries i b st'
    | (Raised, st') => (Raised, st')
    end.
Proof.
  revert st. induction a as [|x a IH]; intros st; simpl.
  - reflexivity.
  - unfold bindX.
    destruct (insert_entry i x st) as [[u|] st1]; [|reflexivity].
    apply IH.
Qed.

Lemma insert_entry_double (i : Z) (m : mapping) (ss2 se2 : Z) (st : state) :
  existsb (key_is i (tvdb_season m) (tvdb_episode m)) (xem_numbering st)
  = false ->
  insert_entry i (double_json m ss2 se2) st
  = (Raised, with_xem_numbering (xem_numbering st ++ [row_of i m]) st).
Proof.
  intros H. destruct m as [s e ss se]. simpl in H.
  unfold insert_entry, bindX, eval, retX, ret, cacheDB_insert, insert.
  simpl. rewrite H. simpl.
  rewrite existsb_app. simpl. rewrite key_is_refl.
  now rewrite orb_true_r.
Qed.

(** X16.  A double episode ends the load.  When the value says "success"
    and its "data" is a list of mappings with distinct tvdb keys followed by
    an entry with both "scene" and "scene_2", the INSERT for "scene_2" has
    the key of the INSERT for "scene" and fails: the refresh ends in the
    [except] clause, the cache holds for the show the rows of the mappings
    and the first scene pair of the double, and neither its second scene
    pair nor any entry after it is stored. *)
Theorem double_episode_ends_load
  (st : state) (i : Z) (result indicator : json)
  (l : list mapping) (d : mapping) (ss2 se2 : Z) (rest : list json) :
  fetch (remote st) i = Fetched result ->
  getitem result "result" = Some indicator ->
  contains "success" indicator = Some true ->
  getitem result "data"
  = Some (JArr (map entry_json l ++ double_json d ss2 se2 :: rest)) ->
  NoDup (map tvdb_key (l ++ [d])) ->
  fst (_xem_refresh_try i st) = Raised
  /\ xem_numbering (snd (_xem_refresh (Some i) st))
     = delete (show_is i) (xem_numbering st) ++ map (row_of i) (l ++ [d]).
Proof.
  intros Hf Hi Hs Hd Hnd.
  assert (Ht : truthy result = true).
  { destruct result; try discriminate Hi. now destruct fields. }
  rewrite map_app in Hnd.
  assert (Hl : NoDup (map tvdb_key l)) by (eapply NoDup_app_remove_r; eassumption).
  assert (Hdl : ~ In (tvdb_key d) (map tvdb_key l)).
  { intros Hin. apply NoDup_remove_2 in Hnd. apply Hnd.
    rewrite app_nil_r. exact Hin. }
  assert (R : forall st0,
             xem_numbering st0 = delete (show_is i) (xem_numbering st) ->
             exists st1,
               insert_entries i
                 (map entry_json l ++ double_json d ss2 se2 :: rest) st0
               = (Raised, st1)
               /\ xem_numbering st1
                  = delete (show_is i) (xem_numbering st)
                    ++ map (row_of i) (l ++ [d])).
  { intros st0 E0.
    assert (Hfree : forall s e,
               existsb (key_is i s e) (xem_numbering st0) = false).
    { intros s e. rewrite E0.
      apply (no_key_in_t0 i _ (select_delete _ _)). }
    eexists. rewrite insert_entries_app.
    rewrite insert_entries_mappings; [|intros m _; apply Hfree|exact Hl].
    cbn [insert_entries]. unfold bindX at 1.
    rewrite insert_entry_double.
    - split; [reflexivity|]. simpl.
      now rewrite E0, map_app, <- app_assoc.
    - simpl. rewrite existsb_app, Hfree. simpl.
      apply existsb_select_nil, select_key_mappings_none. exact Hdl. }
  rewrite xem_refresh_run, xem_refresh_try_fetch. cbv zeta. rewrite Hf.
  cbn [snd]. rewrite store_result_run by exact Ht.
  rewrite (load_result_success_run i result indicator) by assumption.
  unfold load_entries, bindX at 1 2 3 4. unfold eval. rewrite Hd.
  simpl iter. cbv iota beta.
  match goal with
  | |- context [insert_entries i _ ?s] =>
      destruct (R s eq_refl) as (st1 & E1 & E2)
  end.
  rewrite E1. split; [reflexivity|exact E2].
Qed.

Lemma double_episode_ends_load_witness :
  fst (_xem_refresh_try 1 st_double) = Raised
  /\ xem_numbering (snd (_xem_refresh (Some 1) st_double))
     = [mkRow 9 1 1 1 2; mkRow 1 2 3 1 15].
Proof.
  apply (double_episode_ends_load st_double 1 double_mapping (JStr "success")
           [] (mkMapping 2 3 1 15) 1 16
           [JObj [("tvdb", JObj [("season", JNum 2); ("episode", JNum 4)]);
                  ("scene", JObj [("season", JNum 1); ("episode", JNum 17)])]]);
    try reflexivity.
  repeat (constructor; [simpl; intuition discriminate|]). constructor.
Defined.

Lemma prefix_app (n b : string) : String.prefix n (n ++ b) = true.
Proof.
  induction n as [|c n IH]; simpl; [now destruct b|].
  destruct (Ascii.ascii_dec c c) as [_|N]; [exact IH|now destruct N].
Qed.

Lemma substring_of_prefix (n hay : string) :
  String.prefix n hay = true -> substring_of n hay = true.
Proof.
  intros H. destruct hay as [|c hay]; [exact H|].
  cbn [substring_of]. now rewrite H.
Qed.

Lemma substring_of_app (n a b : string) :
  substring_of n (a ++ n ++ b)%string = true.
Proof.
  induction a as [|c a IH]; simpl.
  - apply substring_of_prefix, prefix_app.
  - rewrite IH. apply orb_true_r.
Qed.

(** X17.  The success test is containment, not equality: a value whose
    "result" is any string that has "success" inside, such as
    "unsuccessful", is loaded like a success; with mappings of distinct
    tvdb keys as "data", the rows of the show are replaced by them. *)
Theorem success_is_a_substring_test
  (st : state) (i : Z) (result : json) (before after : string)
  (l : list mapping) :
  fetch (remote st) i = Fetched result ->
  getitem result "result"
  = Some (JStr (before ++ "success" ++ after)%string) ->
  getitem result "data" = Some (JArr (map entry_json l)) ->
  NoDup (map tvdb_key l) ->
  xem_numbering (snd (_xem_refresh (Some i) st))
  = delete (show_is i) (xem_numbering st) ++ map (row_of i) l.
Proof.
  intros Hf Hi Hd Hnd.
  apply (xem_refresh_mappings st i result
           (JStr (before ++ "success" ++ after)%string) l);
    try assumption.
  unfold contains. now rewrite substring_of_app.
Qed.

Lemma success_is_a_substring_test_witness :
  xem_numbering (snd (_xem_refresh (Some 1) st_unsuccessful))
  = [mkRow 1 2 3 1 15].
Proof.
  apply (success_is_a_substring_test st_unsuccessful 1
           (JObj [("result", JStr "unsuccessful");
                  ("data", JArr [entry_json (mkMapping 2 3 1 15)])])
           "un" "ful" [mkMapping 2 3 1 15]); try reflexivity.
  repeat (constructor; [simpl; intuition discriminate|]). constructor.
Defined.

(** ** The dumps of a whole show *)

Lemma pair_eqb_eq (a b : Z * Z) : pair_eqb a b = true <-> a = b.
Proof.
  destruct a as [a1 a2], b as [b1 b2]. unfold pair_eqb. simpl.
  rewrite andb_true_iff, !Z.eqb_eq. split.
  - intros [-> ->]. reflexivity.
  - intros H. injection H as -> ->. auto.
Qed.

Lemma dict_lookup_assign (k k' v : Z * Z) (d : show_dict) :
  dict_lookup k (dict_assign k' v d)
  = if pair_eqb k' k then Some v else dict_lookup k d.
Proof.
  induction d as [|[k0 v0] d IH]; simpl; [reflexivity|].
  destruct (pair_eqb k0 k') eqn:E0; simpl.
  - apply pair_eqb_eq in E0. subst k0.
    now destruct (pair_eqb k' k).
  - rewrite IH. destruct (pair_eqb k0 k) eqn:E1; [|reflexivity].
    destruct (pair_eqb k' k) eqn:E2; [|reflexivity].
    apply pair_eqb_eq in E1, E2. subst.
    assert (T : pair_eqb k k = true) by now apply pair_eqb_eq.
    congruence.
Qed.

Lemma lookup_fold_miss (k : Z * Z) (rows : list numbering_row) :
  forall d : show_dict,
    (forall r, In r rows -> has_pair k r = false) ->
    dict_lookup k (fold_left assign_row rows d) = dict_lookup k d.
Proof.
  induction rows as [|x rows IH]; intros d H; simpl; [reflexivity|].
  rewrite IH by (intros r Hr; apply H; now right).
  unfold assign_row. rewrite dict_lookup_assign.
  pose proof (H x (or_introl eq_refl)) as Hx. unfold has_pair in Hx.
  now rewrite Hx.
Qed.

Lemma lookup_fold_hit (k : Z * Z) (rows : list numbering_row)
  (r : numbering_row) :
  forall d : show_dict,
    In r rows -> has_pair k r = true ->
    (forall r', In r' rows -> has_pair k r' = true -> r' = r) ->
    dict_lookup k (fold_left assign_row rows d) = Some (scene_of r).
Proof.
  induction rows as [|x rows IH]; intros d Hin Hr Hall; [now destruct Hin|].
  simpl.
  destruct (existsb (has_pair k) rows) eqn:X.
  - apply existsb_exists in X as (r' & Hr' & Hh).
    assert (r' = r) by (apply Hall; [now right|exact Hh]). subst r'.
    apply IH; [exact Hr'|exact Hr|].
    intros r'' H1 H2. apply Hall; [now right|exact H2].
  - rewrite lookup_fold_miss.
    + destruct Hin as [->|Hin].
      * unfold assign_row. rewrite dict_lookup_assign.
        unfold has_pair in Hr. now rewrite Hr.
      * exfalso.
        assert (Y : existsb (has_pair k) rows = true)
          by (apply existsb_exists; eauto).
        congruence.
    + intros r' Hr'. destruct (has_pair k r') eqn:Hh; [|reflexivity].
      assert (Y : existsb (has_pair k) rows = true)
        by (apply existsb_exists; eauto).
      congruence.
Qed.

(** What the loop of a dump answers for a key, on the rows of one show of a
    table with a primary key. *)
Lemma rows_to_dict_lookup (t : list numbering_row) (i s e : Z) :
  unique_keys t ->
  dict_lookup (s, e)
    (rows_to_dict (order_by_season_episode (select (show_is i) t)))
  = match select (key_is i s e) t with
    | r :: _ => Some (scene_of r)
    | [] => None
    end.
Proof.
  intros Hpk. unfold rows_to_dict.
  change (fun result row =>
            dict_assign (row_season row, row_episode row)
              (row_scene_season row, row_scene_episode row) result)
    with assign_row.
  assert (Hrows : forall r,
             In r (order_by_season_episode (select (show_is i) t)) ->
             In r t /\ has_pair (s, e) r = key_is i s e r).
  { intros r Hr. apply (proj1 (in_order_by _ _)) in Hr. unfold select in Hr.
    apply filter_In in Hr as [Hr Hs]. split; [exact Hr|].
    unfold has_pair, pair_eqb, key_is, show_is in *. simpl. now rewrite Hs. }
  destruct (select (key_is i s e) t) as [|r rest] eqn:E.
  - rewrite lookup_fold_miss; [reflexivity|].
    intros r Hr. destruct (Hrows r Hr) as [Hin ->].
    apply existsb_select_nil in E.
    destruct (key_is i s e r) eqn:K; [|reflexivity].
    assert (Y : existsb (key_is i s e) t = true)
      by (apply existsb_exists; eauto).
    congruence.
  - assert (Hr : In r t /\ key_is i s e r = true).
    { apply filter_In. unfold select in E. rewrite E. now left. }
    destruct Hr as [Hin Hk].
    apply lookup_fold_hit.
    + apply (proj2 (in_order_by _ _)). unfold select. apply filter_In.
      split; [exact Hin|]. revert Hk. apply key_is_show.
    + unfold has_pair, pair_eqb, key_is in *. simpl.
      apply andb_true_iff in Hk as [Hk1 Hk3].
      apply andb_true_iff in Hk1 as [_ Hk2]. now rewrite Hk2, Hk3.
    + intros r' Hr' Hh. destruct (Hrows r' Hr') as [Hin' Heq].
      rewrite Heq in Hh.
      apply (unique_keys_same_row t); try assumption.
      apply key_is_key3 in Hh, Hk. congruence.
Qed.

(** X18.  [get_scene_numbering_for_show] and the lookup agree.  On a store
    with a primary key, the dump of a show has under (s, e) the scene pair
    of the override of (show, s, e), and has no such key when there is no
    override; what it has is what [get_scene_numbering] returns for the
    key; it is empty for a show without overrides.  The dump reads the
    override store only: the cache tables, the clock and the log of GETs
    are as before. *)
Theorem get_scene_numbering_for_show_lookup
  (st : state) (i s e : Z) (fallback_to_xem : bool) :
  unique_keys (scene_numbering st) ->
  let dump := get_scene_numbering_for_show (Some i) st in
  dict_lookup (s, e) (fst dump)
  = match select (key_is i s e) (scene_numbering st) with
    | r :: _ => Some (scene_of r)
    | [] => None
    end
  /\ (forall v, dict_lookup (s, e) (fst dump) = Some v ->
        fst (get_scene_numbering (Some i) (Some s) (Some e) fallback_to_xem st)
        = as_numbering v)
  /\ (select (show_is i) (scene_numbering st) = [] -> fst dump = [])
  /\ snd dump = with_schema_created true st.
Proof.
  intros Hpk. cbv zeta.
  unfold get_scene_numbering_for_show, bind, myDB_select, ret.
  rewrite check_for_schema_run. cbn [fst snd].
  change (scene_numbering (with_schema_created true st))
    with (scene_numbering st).
  pose proof (rows_to_dict_lookup (scene_numbering st) i s e Hpk) as L.
  split; [exact L|]. split; [|split; [|reflexivity]].
  - intros v Hv. rewrite L in Hv. rewrite get_scene_numbering_run. cbn [fst].
    destruct (select (key_is i s e) (scene_numbering st)) as [|r rest];
      [discriminate|].
    injection Hv as <-. reflexivity.
  - intros H. now rewrite H.
Qed.

Lemma get_scene_numbering_for_show_lookup_witness :
  dict_lookup (2, 1) (fst (get_scene_numbering_for_show (Some 1)
                             st_two_overrides))
  = Some (1, 13)
  /\ dict_lookup (7, 7) (fst (get_scene_numbering_for_show (Some 1)
                                st_two_overrides))
     = None.
Proof.
  assert (Hpk : unique_keys (scene_numbering st_two_overrides)).
  { unfold unique_keys, st_two_overrides. simpl.
    repeat (constructor; [simpl; intuition discriminate|]). constructor. }
  split.
  - apply (get_scene_numbering_for_show_lookup st_two_overrides 1 2 1 true Hpk).
  - apply (get_scene_numbering_for_show_lookup st_two_overrides 1 7 7 true Hpk).
Defined.

(** X19.  [get_xem_numbering_for_show] and the lookup agree.  For a show
    that is fresh, on a cache with a primary key, the dump has under (s, e)
    the scene pair that [find_xem_numbering] returns for the key, and no
    such key when [find_xem_numbering] returns [None]; no GET is issued and
    no table changes. *)
Theorem get_xem_numbering_for_show_lookup (st : state) (i s e : Z) :
  fst (_xem_refresh_needed (Some i) st) = false ->
  unique_keys (xem_numbering st) ->
  let dump := get_xem_numbering_for_show (Some i) st in
  option_map as_numbering (dict_lookup (s, e) (fst dump))
  = fst (find_xem_numbering (Some i) (Some s) (Some e) st)
  /\ snd dump = with_schema_created true st.
Proof.
  intros Hfresh Hpk. cbv zeta.
  rewrite find_xem_numbering_fresh by exact Hfresh. cbn [fst].
  unfold get_xem_numbering_for_show, bind.
  rewrite xem_refresh_needed_run in Hfresh. simpl in Hfresh.
  rewrite check_for_schema_run, xem_refresh_needed_run.
  unfold marker in *. simpl. rewrite Hfresh.
  unfold cacheDB_select, ret. simpl.
  split.
  - change (xem_numbering (with_schema_created true
                             (with_schema_created true st)))
      with (xem_numbering st).
    rewrite (rows_to_dict_lookup (xem_numbering st) i s e Hpk).
    now destruct (select (key_is i s e) (xem_numbering st)).
  - now destruct st.
Qed.

Lemma get_xem_numbering_for_show_lookup_witness :
  option_map as_numbering
    (dict_lookup (2, 1) (fst (get_xem_numbering_for_show (Some 1)
                                st_split_season)))
  = fst (find_xem_numbering (Some 1) (Some 2) (Some 1) st_split_season)
  /\ snd (get_xem_numbering_for_show (Some 1) st_split_season)
     = with_schema_created true st_split_season.
Proof.
  apply (get_xem_numbering_for_show_lookup st_split_season 1 2 1).
  - reflexivity.
  - unfold unique_keys, st_split_season. simpl.
    repeat (constructor; [simpl; intuition discriminate|]). constructor.
Defined.

(** ** Staleness over time *)

(** X20.  The other end of the window: with a marker that is not negative,
    at every time more than 86400 seconds after the marker the show is
    stale. *)
Theorem stale_after_window
  (st : state) (i : Z) (m : Q) (rest : list refresh_row) :
  marker i st = mkRefresh i m :: rest ->
  (0 <= m)%Q ->
  (m + inject_Z MAX_XEM_AGE_SECS < clock st)%Q ->
  fst (_xem_refresh_needed (Some i) st) = true.
Proof.
  intros Hm Hpos Hlate. rewrite xem_refresh_needed_run. cbn [fst].
  rewrite Hm. cbn [last_refreshed].
  apply negb_true_iff.
  destruct (Qle_bool (clock st) (inject_Z (Py.int m + MAX_XEM_AGE_SECS)))
    eqn:E; [|reflexivity].
  apply Qle_bool_iff in E. exfalso.
  unfold Py.int in E. apply Qle_bool_iff in Hpos. rewrite Hpos in E.
  rewrite inject_Z_plus in E.
  pose proof (Qfloor_le m) as F. lra.
Qed.

Lemma stale_after_window_witness :
  fst (_xem_refresh_needed (Some 1) (with_clock (87401 # 1) st_marked)) = true.
Proof.
  apply (stale_after_window (with_clock (87401 # 1) st_marked) 1 (2001 # 2) []).
  - reflexivity.
  - vm_compute. discriminate.
  - vm_compute. reflexivity.
Defined.

(** X21.  Staleness only grows with time: with the tables unchanged, a show
    that is stale at one time is stale at every later time. *)
Theorem staleness_is_monotone (st : state) (i : Z) (t1 t2 : Q) :
  (t1 <= t2)%Q ->
  fst (_xem_refresh_needed (Some i) (with_clock t1 st)) = true ->
  fst (_xem_refresh_needed (Some i) (with_clock t2 st)) = true.
Proof.
  intros Hle. rewrite !xem_refresh_needed_run. cbn [fst].
  change (marker i (with_clock t1 st)) with (marker i st).
  change (marker i (with_clock t2 st)) with (marker i st).
  destruct (marker i st) as [|r rest]; [reflexivity|]. simpl.
  rewrite !negb_true_iff. intros H1.
  destruct (Qle_bool t2 _) eqn:E2; [|reflexivity].
  apply Qle_bool_iff in E2.
  assert (E1 : Qle_bool t1
                 (inject_Z (Py.int (last_refreshed r) + MAX_XEM_AGE_SECS))
               = true).
  { apply Qle_bool_iff. eapply Qle_trans; eassumption. }
  congruence.
Qed.

Lemma staleness_is_monotone_witness :
  fst (_xem_refresh_needed (Some 1) (with_clock (90000 # 1) st_marked)) = true.
Proof.
  apply (staleness_is_monotone st_marked 1 (87401 # 1) (90000 # 1)).
  - vm_compute. discriminate.
  - reflexivity.
Defined.

(** ** Refreshing again *)

Lemma load_result_rows (i : Z) (result : json) (st : state) :
  xem_numbering (snd (load_result i result st))
  = match getitem result "result" with
    | Some indicator =>
        match contains "success" indicator with
        | Some true =>
            delete (show_is i) (xem_numbering st) ++ payload_rows i result
        | _ => xem_numbering st
        end
    | None => xem_numbering st
    end.
Proof.
  destruct (getitem result "result") as [indicator|] eqn:Hi.
  - destruct (contains "success" indicator) as [[|]|] eqn:Hs.
    + now apply (load_result_success i result indicator).
    + unfold load_result, bindX, eval, retX, ret. rewrite Hi, Hs.
      now destruct (getitem result "message").
    + unfold load_result, bindX, eval. now rewrite Hi, Hs.
  - unfold load_result, bindX, eval. now rewrite Hi.
Qed.

Lemma xem_refresh_rows (i : Z) (st : state) :
  xem_numbering (snd (_xem_refresh (Some i) st))
  = rows_after i (remote st) (xem_numbering st).
Proof.
  rewrite xem_refresh_run, xem_refresh_try_fetch. cbv zeta. unfold rows_after.
  destruct (fetch (remote st) i) as [| |result]; try reflexivity.
  cbn [snd]. destruct (truthy result) eqn:T.
  - rewrite store_result_run by exact T. now rewrite load_result_rows.
  - now rewrite store_result_falsy by exact T.
Qed.

Lemma delete_payload_rows (i : Z) (result : json) :
  delete (show_is i) (payload_rows i result) = [].
Proof.
  unfold payload_rows.
  destruct (keeps_load_result i result blank) as (_ & _ & _ & _ & _ & _ & E).
  rewrite E. reflexivity.
Qed.

(** X22.  Refreshing is idempotent on the cache: a second refresh of the
    show, with the endpoints answering as before, leaves [xem_numbering] as
    the first refresh left it; rows are never accumulated, whatever the
    answer. *)
Theorem xem_refresh_twice (st : state) (i : Z) :
  let st1 := snd (_xem_refresh (Some i) st) in
  xem_numbering (snd (_xem_refresh (Some i) st1)) = xem_numbering st1.
Proof.
  cbv zeta. rewrite (xem_refresh_rows i (snd (_xem_refresh (Some i) st))).
  destruct (xem_refresh_frame i st) as (_ & _ & _ & Hrm & _). cbv zeta in Hrm.
  rewrite Hrm, xem_refresh_rows.
  unfold rows_after.
  destruct (fetch (remote st) i) as [| |result]; try reflexivity.
  destruct (truthy result); [|reflexivity].
  destruct (getitem result "result") as [indicator|]; [|reflexivity].
  destruct (contains "success" indicator) as [[|]|]; try reflexivity.
  now rewrite delete_app, delete_idem, delete_payload_rows, app_nil_r.
Qed.

(** ** Setting an override and dumping the show *)

Lemma overrides_after_set_unique (i s e : Z) (oss ose : option Z)
  (t : list numbering_row) :
  unique_keys t -> unique_keys (overrides_after_set i s e oss ose t).
Proof.
  intros H. unfold overrides_after_set.
  pose proof (unique_keys_delete (key_is i s e) _ H) as D.
  destruct oss as [ss|], ose as [se|]; try exact D.
  eapply unique_keys_insert; [exact D|apply insert_after_delete].
Qed.

(** X23.  What is set shows in the dump.  On a store with a primary key,
    after [set_scene_numbering] of (show, s, e) the dump of the show has
    under (s, e) the scene pair that was given, and has no key (s, e) when
    the call cleared the override (one scene value or both [None]). *)
Theorem set_scene_numbering_then_dump
  (st : state) (i s e : Z) (sceneSeason sceneEpisode : option Z) :
  unique_keys (scene_numbering st) ->
  dict_lookup (s, e)
    (fst (get_scene_numbering_for_show (Some i)
            (snd (set_scene_numbering (Some i) (Some s) (Some e)
                    sceneSeason sceneEpisode st))))
  = match sceneSeason, sceneEpisode with
    | Some ss, Some se => Some (ss, se)
    | _, _ => None
    end.
Proof.
  intros Hpk. rewrite set_scene_numbering_run. cbn [snd].
  unfold get_scene_numbering_for_show, bind, myDB_select, ret.
  rewrite check_for_schema_run. cbn [fst snd].
  match goal with
  | |- context [select (show_is i) ?t] =>
      change t with (overrides_after_set i s e sceneSeason sceneEpisode
                       (scene_numbering st))
  end.
  rewrite rows_to_dict_lookup by now apply overrides_after_set_unique.
  rewrite select_key_after_set.
  now destruct sceneSeason, sceneEpisode.
Qed.

Lemma set_scene_numbering_then_dump_witness :
  dict_lookup (2, 1)
    (fst (get_scene_numbering_for_show (Some 1)
            (snd (set_scene_numbering (Some 1) (Some 2) (Some 1)
                    (Some 4) (Some 4) st_two_overrides))))
  = Some (4, 4).
Proof.
  apply (set_scene_numbering_then_dump st_two_overrides 1 2 1
           (Some 4) (Some 4)).
  unfold unique_keys, st_two_overrides. simpl.
  repeat (constructor; [simpl; intuition discriminate|]). constructor.
Defined.

Lemma xem_refresh_touches_one_show_witness :
  scene_numbering (snd (_xem_refresh (Some 1) st_stale))
  = scene_numbering st_stale
  /\ select (show_is 9) (xem_numbering (snd (_xem_refresh (Some 1) st_stale)))
     = select (show_is 9) (xem_numbering st_stale)
  /\ marker 9 (snd (_xem_refresh (Some 1) st_stale)) = marker 9 st_stale.
Proof.
  destruct (xem_refresh_touches_one_show st_stale 1) as (_ & A & _ & B & C).
  split; [exact A|]. split; [apply B|apply C]; discriminate.
Defined.
